(** * Happy_app.py: the filter / aggregate / export pipeline of the dashboard

    A shallow embedding of [src/Happy_app.py] (a Streamlit script over a
    pandas DataFrame) and the properties of its data flow.

    - [Py]: Python exceptions as an error monad, the two interpreter
      builtins the script reaches through pandas ([int(str)], [str(float)]).
    - [Pandas]: the part of the DataFrame / Series interface the script
      calls: column selection, boolean masks, mask indexing, column
      assignment, skip-NaN reductions, [idxmax]/[loc], [astype], [to_csv].
    - [Happy_app]: the script itself, statement by statement, as a program
      over a store holding the two frames it binds ([data],
      [filtered_data]) and the elements it renders. *)

From Stdlib Require Import List String Ascii ZArith Bool Lia Floats DecimalString
  Permutation.
Import ListNotations.

Open Scope string_scope.
Open Scope Z_scope.

(* ================================================================== *)
(** * Python: exceptions and builtins                                   *)
(* ================================================================== *)

Module Py.

(** The exceptions that can leave the script.  [read_csv] raises the
    first five; the others come from indexing, casting and arithmetic. *)
Inductive exn : Type :=
| FileNotFoundError
| PermissionError
| EmptyDataError
| ParserError
| UnicodeDecodeError
| KeyError (key : string)
| ValueError
| TypeError
| OverflowError
| NameError (name : string).

Inductive result (A : Type) : Type :=
| Ok (a : A)
| Raise (e : exn).
Arguments Ok {A} a.
Arguments Raise {A} e.

Definition bind {A B} (c : result A) (k : A -> result B) : result B :=
  match c with
  | Ok a => k a
  | Raise e => Raise e
  end.


(** [f] applied left to right; the first exception wins. *)
Fixpoint mapM {A B} (f : A -> result B) (l : list A) : result (list B) :=
  match l with
  | [] => Ok []
  | x :: l' =>
      match f x with
      | Raise e => Raise e
      | Ok y => match mapM f l' with
                | Raise e => Raise e
                | Ok ys => Ok (y :: ys)
                end
      end
  end.

(** Text conversions that belong to the interpreter, not to the script:
    [int(s)] on a string as [astype(int)] stores it in an int64 (the
    integer, or the exception raised: [ValueError] when [s] is no integer
    numeral, [OverflowError] when the integer does not fit), and [str(x)]
    on a float. *)
Class Builtins : Type := {
  int_of_str : string -> result Z;
  str_of_float : float -> string
}.

(** [str(n)] on an integer: its decimal numeral. *)
Definition str_of_int (z : Z) : string :=
  NilZero.string_of_int (Z.to_int z).

(** [float(n)] on an integer: the nearest binary64 value. *)
Definition float_of_int (z : Z) : float :=
  SF2Prim (binary_normalize prec emax z 0 false).

(** Truncation toward zero of a finite float; [None] on NaN and the
    infinities. *)
Definition trunc (f : float) : option Z :=
  match Prim2SF f with
  | S754_zero _ => Some 0
  | S754_finite s m e =>
      let mag := if (0 <=? e)%Z then Z.shiftl (Z.pos m) e
                 else Z.shiftr (Z.pos m) (- e) in
      Some (if s then - mag else mag)
  | S754_infinity _ => None
  | S754_nan => None
  end.

(** [int(x)] on a float: truncation toward zero; NaN raises
    [ValueError], an infinity [OverflowError]. *)
Definition int_of_float (f : float) : result Z :=
  match trunc f with
  | Some z => Ok z
  | None => if is_nan f then Raise ValueError else Raise OverflowError
  end.

End Py.

Import Py.

Declare Scope py_scope.
Delimit Scope py_scope with py.
Notation "x <- c ;; k" := (Py.bind c (fun x => k))
  (at level 61, c at next level, right associativity) : py_scope.
Open Scope py_scope.

(* ================================================================== *)
(** * pandas: frames, series, masks, reductions                         *)
(* ================================================================== *)

Module Pandas.

(** A cell holds a string (dtype object), an integer or a float
    (float64).  A missing value is the float NaN, as in pandas.  The
    integers of a column [read_csv] parsed lie in int64, or in uint64
    when the file holds a numeral from 2^63 on; the type does not bound
    them, the cast below does. *)
Inductive cell : Type :=
| Str (s : string)
| Int (z : Z)
| Float (f : float).

Definition NaN : cell := Float nan.

(** One row: its index label (the row number given by [read_csv], kept
    by every selection) and its cells in column order. *)
Record Row : Type := mkRow { label : Z; cells : list cell }.

Record DataFrame : Type := mkFrame { columns : list string; rows : list Row }.

(** A column taken out of a frame: labelled values. *)
Definition Series : Type := list (Z * cell).

Definition values (s : Series) : list cell := map snd s.

(** Position of a column label ([read_csv] makes labels unique). *)
Fixpoint position (name : string) (cols : list string) : option nat :=
  match cols with
  | [] => None
  | c :: cols' =>
      if String.eqb name c then Some O
      else option_map S (position name cols')
  end.

Definition cell_at (j : nat) (r : Row) : cell := nth j (cells r) NaN.

(** [df[name]] *)
Definition getitem (df : DataFrame) (name : string) : result Series :=
  match position name (columns df) with
  | None => Raise (KeyError name)
  | Some j => Ok (map (fun r => (label r, cell_at j r)) (rows df))
  end.

(** [df.empty]: some axis has length 0. *)
Definition empty (df : DataFrame) : bool :=
  match columns df, rows df with
  | _ :: _, _ :: _ => false
  | _, _ => true
  end.

(** ** Boolean masks *)

(** [s.isin(names)] *)
Definition isin (s : Series) (names : list string) : list bool :=
  map (fun c => match c with
                | Str x => existsb (String.eqb x) names
                | _ => false
                end) (values s).

(** [s == name] against a string: never raises. *)
Definition eq_str (s : Series) (name : string) : list bool :=
  map (fun c => match c with Str x => String.eqb x name | _ => false end)
      (values s).

(** [s == k] against an integer. *)
Definition eq_int (s : Series) (k : Z) : list bool :=
  map (fun c => match c with
                | Int z => (z =? k)%Z
                | Float f => PrimFloat.eqb f (float_of_int k)
                | Str _ => false
                end) (values s).

(** Ordering a cell against a number; a string cell raises. *)
Definition ge_int_cell (k : Z) (c : cell) : result bool :=
  match c with
  | Int z => Ok (k <=? z)%Z
  | Float f => Ok (PrimFloat.leb (float_of_int k) f)
  | Str _ => Raise TypeError
  end.

Definition le_int_cell (k : Z) (c : cell) : result bool :=
  match c with
  | Int z => Ok (z <=? k)%Z
  | Float f => Ok (PrimFloat.leb f (float_of_int k))
  | Str _ => Raise TypeError
  end.

(** A cell as a number in a reduction or a comparison; a string raises
    (pandas 2 and later). *)
Definition to_float (c : cell) : result float :=
  match c with
  | Int z => Ok (float_of_int z)
  | Float f => Ok f
  | Str _ => Raise TypeError
  end.

Definition ge_float_cell (k : float) (c : cell) : result bool :=
  f <- to_float c ;; Ok (PrimFloat.leb k f).

Definition le_float_cell (k : float) (c : cell) : result bool :=
  f <- to_float c ;; Ok (PrimFloat.leb f k).

(** [s >= k], [s <= k] *)
Definition ge_int (s : Series) (k : Z) : result (list bool) :=
  mapM (ge_int_cell k) (values s).
Definition le_int (s : Series) (k : Z) : result (list bool) :=
  mapM (le_int_cell k) (values s).
Definition ge_float (s : Series) (k : float) : result (list bool) :=
  mapM (ge_float_cell k) (values s).
Definition le_float (s : Series) (k : float) : result (list bool) :=
  mapM (le_float_cell k) (values s).

(** [m1 & m2] *)
Fixpoint mask_and (m1 m2 : list bool) : list bool :=
  match m1, m2 with
  | b1 :: m1', b2 :: m2' => (b1 && b2) :: mask_and m1' m2'
  | _, _ => []
  end.

(** The entries of [l] whose mask bit is set, in order. *)
Fixpoint select {A} (l : list A) (m : list bool) : list A :=
  match l, m with
  | x :: l', b :: m' => if b then x :: select l' m' else select l' m'
  | _, _ => []
  end.

(** [df[mask]]: a new frame, same columns, the selected rows with their
    labels. *)
Definition getitem_mask (df : DataFrame) (m : list bool) : DataFrame :=
  mkFrame (columns df) (select (rows df) m).

(** ** Assignment of a column *)

Fixpoint set_nth {A} (j : nat) (v : A) (l : list A) : list A :=
  match j, l with
  | O, _ :: l' => v :: l'
  | S j', x :: l' => x :: set_nth j' v l'
  | _, [] => []
  end.

(** The rows of a frame each given one value of [vals] through [put];
    a row the values do not reach is given NaN (index alignment). *)
Fixpoint assign (put : cell -> list cell -> list cell)
    (rs : list Row) (vals : list cell) : list Row :=
  match rs with
  | [] => []
  | r :: rs' =>
      match vals with
      | v :: vals' => mkRow (label r) (put v (cells r)) :: assign put rs' vals'
      | [] => mkRow (label r) (put NaN (cells r)) :: assign put rs' []
      end
  end.

(** [df[name] = vals]: the column is overwritten where it stands, or
    added as the last column when the label is new. *)
Definition setitem (df : DataFrame) (name : string) (vals : list cell)
  : DataFrame :=
  match position name (columns df) with
  | Some j => mkFrame (columns df) (assign (set_nth j) (rows df) vals)
  | None =>
      mkFrame (columns df ++ [name])%list
              (assign (fun v cs => (cs ++ [v])%list) (rows df) vals)
  end.

(** ** Casts *)

Definition int64_min : Z := - 2 ^ 63.
Definition int64_max : Z := 2 ^ 63 - 1.
Definition uint64_max : Z := 2 ^ 64 - 1.
Definition in_int64 (z : Z) : bool := (int64_min <=? z) && (z <=? int64_max).
Definition in_uint64 (z : Z) : bool := (0 <=? z) && (z <=? uint64_max).

(** One value under [astype(int)], the target being int64.  An integer
    of int64 is kept; one of uint64 from 2^63 on wraps around, to the
    int64 of the same 64 bits; an integer that fits neither raises
    [OverflowError].  A float is truncated; NaN and the infinities raise
    (IntCastingNaNError, a ValueError); a finite float outside int64
    becomes the x86-64 indefinite value.  A string goes through
    [int(s)]. *)
Definition astype_int_cell `{Builtins} (c : cell) : result Z :=
  match c with
  | Int z =>
      if in_int64 z then Ok z
      else if in_uint64 z then Ok (z - 2 ^ 64)
      else Raise OverflowError
  | Float f =>
      match trunc f with
      | None => Raise ValueError
      | Some z => Ok (if in_int64 z then z else int64_min)
      end
  | Str s => int_of_str s
  end.

(** [s.astype(int)] *)
Definition astype_int `{Builtins} (s : Series) : result (list Z) :=
  mapM astype_int_cell (values s).

Definition astype_str_cell `{Builtins} (c : cell) : string :=
  match c with
  | Str s => s
  | Int z => str_of_int z
  | Float f => str_of_float f
  end.

(** [s.astype(str)] *)
Definition astype_str `{Builtins} (s : Series) : list string :=
  map astype_str_cell (values s).

(** ** Text columns *)

(** [c + t] for a text [t]: concatenation on a string, NaN stays NaN,
    a number raises. *)
Definition add_str_cell (c : cell) (t : string) : result cell :=
  match c with
  | Str x => Ok (Str (x ++ t))
  | Float f => if is_nan f then Ok NaN else Raise TypeError
  | Int _ => Raise TypeError
  end.

(** [s + t] against one text. *)
Definition add_str (s : list cell) (t : string) : result (list cell) :=
  mapM (fun c => add_str_cell c t) s.

(** [s1 + s2], the right operand a column of texts. *)
Fixpoint add_strs (s : list cell) (ts : list string) : result (list cell) :=
  match s, ts with
  | c :: s', t :: ts' =>
      match add_str_cell c t with
      | Raise e => Raise e
      | Ok v => match add_strs s' ts' with
                | Raise e => Raise e
                | Ok vs => Ok (v :: vs)
                end
      end
  | _, _ => Ok []
  end.

(** ** Reductions, NaN skipped ([skipna=True], the default) *)

(** *** The sum: numpy's [add.reduce] on a float64 array

    Pairwise summation.  Fewer than eight values are added one by one
    from the left, starting from -0.0.  From eight values on, eight
    running sums take the values eight at a time; the eight sums are
    added as a balanced tree and the values left over, fewer than eight,
    are added to the result one by one.  An array of more than
    [PW_BLOCKSIZE] values is cut in two at a multiple of eight near its
    middle, and the sums of the two parts are added. *)

Definition lanes : Type :=
  (float * float * float * float * float * float * float * float)%type.

(** The loop over the blocks of eight: what the running sums hold at
    its end, and the values left over. *)
Fixpoint add_lanes (r : lanes) (a : list float) : lanes * list float :=
  match a with
  | a0 :: a1 :: a2 :: a3 :: a4 :: a5 :: a6 :: a7 :: a' =>
      let '(r0, r1, r2, r3, r4, r5, r6, r7) := r in
      add_lanes (r0 + a0, r1 + a1, r2 + a2, r3 + a3,
                 r4 + a4, r5 + a5, r6 + a6, r7 + a7)%float a'
  | _ => (r, a)
  end.

(** The sum of an array of at most [PW_BLOCKSIZE] values: with eight
    values or more the running sums start from the first eight; with
    fewer the values are added to -0.0 one by one. *)
Definition block_sum (a : list float) : float :=
  match a with
  | a0 :: a1 :: a2 :: a3 :: a4 :: a5 :: a6 :: a7 :: a' =>
      let '((r0, r1, r2, r3, r4, r5, r6, r7), rest) :=
        add_lanes (a0, a1, a2, a3, a4, a5, a6, a7) a' in
      fold_left PrimFloat.add rest
        (((r0 + r1) + (r2 + r3)) + ((r4 + r5) + (r6 + r7)))%float
  | _ => fold_left PrimFloat.add a (-0)%float
  end.

Definition PW_BLOCKSIZE : nat := 128.

(** The recursion on the two halves, [depth] calls deep at most. *)
Fixpoint pairwise_sum_rec (depth : nat) (a : list float) : float :=
  match depth with
  | S depth' =>
      let n := List.length a in
      if (PW_BLOCKSIZE <? n)%nat then
        let n2 := (n / 2 - (n / 2) mod 8)%nat in
        (pairwise_sum_rec depth' (firstn n2 a)
         + pairwise_sum_rec depth' (skipn n2 a))%float
      else block_sum a
  | O => block_sum a
  end.

(** Each call halves the array, so its length is depth enough
    ([pairwise_sum_eq] below). *)
Definition pairwise_sum (a : list float) : float :=
  pairwise_sum_rec (List.length a) a.

(** [a.sum()]: the reduction starts from the identity of the addition,
    0.0, and adds the pairwise sum of the array. *)
Definition add_reduce (a : list float) : float := (0 + pairwise_sum a)%float.

(** *** The mean: [nanops.nanmean]

    The missing values are replaced by 0.0, the whole column is summed,
    and the sum is divided by the number of values that are not missing;
    NaN when there is none. *)

Definition fillna (x : float) : float := if is_nan x then 0%float else x.

Definition notna_count (xs : list float) : Z :=
  Z.of_nat (List.length xs) - Z.of_nat (List.length (filter is_nan xs)).

Definition nanmean (xs : list float) : float :=
  let count := notna_count xs in
  let the_sum := add_reduce (map fillna xs) in
  if (0 <? count)%Z then (the_sum / float_of_int count)%float else nan.

(** *** Minimum and maximum

    One step of numpy's [minimum.reduce] and [maximum.reduce], [a] the
    running value and [b] the next one, neither of them NaN: the running
    value stays only when it is strictly below (above) the next one, so
    of two equal values, such as 0.0 and -0.0, the later is kept. *)
Definition fmin (a b : float) : float := if (a <? b)%float then a else b.
Definition fmax (a b : float) : float := if (b <? a)%float then a else b.

(** Running extremum over the entries that are not NaN, from the first
    of them on.  (pandas puts an infinity in the place of each NaN
    before it reduces, which no number loses to, and answers NaN when
    nothing is left.) *)
Fixpoint nanfold (pick : float -> float -> float) (best : option float)
    (xs : list float) : option float :=
  match xs with
  | [] => best
  | x :: xs' =>
      if is_nan x then nanfold pick best xs'
      else nanfold pick
             (Some (match best with None => x | Some b => pick b x end)) xs'
  end.

Definition nanmin (xs : list float) : float :=
  match nanfold fmin None xs with Some m => m | None => nan end.
Definition nanmax (xs : list float) : float :=
  match nanfold fmax None xs with Some m => m | None => nan end.

Definition floats (s : Series) : result (list float) :=
  mapM to_float (values s).

(** [s.mean()], [s.min()], [s.max()] *)
Definition mean (s : Series) : result float :=
  xs <- floats s ;; Ok (nanmean xs).
Definition min (s : Series) : result float :=
  xs <- floats s ;; Ok (nanmin xs).
Definition max (s : Series) : result float :=
  xs <- floats s ;; Ok (nanmax xs).

(** Label of the first entry that beats every earlier one under [better],
    NaN skipped. *)
Fixpoint argbest (better : float -> float -> bool) (best : option (Z * float))
    (s : list (Z * float)) : option (Z * float) :=
  match s with
  | [] => best
  | (l, x) :: s' =>
      if is_nan x then argbest better best s'
      else argbest better
             (match best with
              | None => Some (l, x)
              | Some (_, b) => if better x b then Some (l, x) else best
              end) s'
  end.

Definition labelled_floats (s : Series) : result (list (Z * float)) :=
  mapM (fun p => x <- to_float (snd p) ;; Ok (fst p, x)) s.

(** [s.idxmax()], [s.idxmin()]: the label of the first extremum.  A
    series with no value at all raises: [ValueError] here, as pandas 3
    does (an older pandas answers NaN and the [loc] that follows raises
    [KeyError]). *)
Definition idxmax (s : Series) : result Z :=
  xs <- labelled_floats s ;;
  match argbest (fun x b => (b <? x)%float) None xs with
  | Some (l, _) => Ok l
  | None => Raise ValueError
  end.
Definition idxmin (s : Series) : result Z :=
  xs <- labelled_floats s ;;
  match argbest (fun x b => (x <? b)%float) None xs with
  | Some (l, _) => Ok l
  | None => Raise ValueError
  end.

(** [df.loc[l, name]]: the cell of the row labelled [l] (labels are
    the row numbers of the parsed file, each used once). *)
Definition loc (df : DataFrame) (l : Z) (name : string) : result cell :=
  match find (fun r => (label r =? l)%Z) (rows df) with
  | None => Raise (KeyError (str_of_int l))
  | Some r =>
      match position name (columns df) with
      | None => Raise (KeyError name)
      | Some j => Ok (cell_at j r)
      end
  end.

(** ** Export *)

(** [df.to_csv(index=False)]: the header line and one record per row,
    index labels left out.  The text of each cell is pandas's. *)
Record Csv : Type := mkCsv { header : list string; records : list (list cell) }.

Definition to_csv (df : DataFrame) : Csv :=
  mkCsv (columns df) (map cells (rows df)).

(** A plotting call reads the named columns of its frame and raises
    when one is absent. *)
Fixpoint uses_columns (df : DataFrame) (names : list string) : result unit :=
  match names with
  | [] => Ok tt
  | n :: names' =>
      match position n (columns df) with
      | None => Raise ValueError
      | Some _ => uses_columns df names'
      end
  end.

(** ** Distinct values and reductions that keep the dtype *)

(** [a == b] between two values of a column, NaN taken as one value (as
    the hash table behind [unique] does).  An integer equals a float
    when the float is that very integer. *)
Definition cell_eqb (a b : cell) : bool :=
  match a, b with
  | Str x, Str y => String.eqb x y
  | Int x, Int y => (x =? y)%Z
  | Float x, Float y => (is_nan x && is_nan y) || PrimFloat.eqb x y
  | Int z, Float f | Float f, Int z =>
      match trunc f with
      | Some z' => (z' =? z)%Z && PrimFloat.eqb f (float_of_int z)
      | None => false
      end
  | _, _ => false
  end.

(** The values not yet [seen], each once, in the order they appear. *)
Fixpoint unique_from (seen : list cell) (l : list cell) : list cell :=
  match l with
  | [] => []
  | c :: l' =>
      if existsb (cell_eqb c) seen then unique_from seen l'
      else c :: unique_from (c :: seen) l'
  end.

(** [s.unique()] *)
Definition unique (s : Series) : list cell := unique_from [] (values s).

(** What [min()] and [max()] answer, with its type: an integer on an
    int64 column, a float otherwise. *)
Inductive number : Type :=
| Integer (z : Z)
| Real (f : float).

(** The integers of a column whose every cell is one (dtype int64). *)
Fixpoint int64_values (l : list cell) : option (list Z) :=
  match l with
  | [] => Some []
  | Int z :: l' => option_map (cons z) (int64_values l')
  | _ :: _ => None
  end.

(** [s.min()], [s.max()] with the dtype kept: the least (greatest)
    integer of an int64 column, NaN on an empty column, the float
    reduction on any other. *)
Definition min_value (s : Series) : result number :=
  match int64_values (values s) with
  | Some (z :: zs) => Ok (Integer (fold_left Z.min zs z))
  | Some [] => Ok (Real nan)
  | None => x <- min s ;; Ok (Real x)
  end.

Definition max_value (s : Series) : result number :=
  match int64_values (values s) with
  | Some (z :: zs) => Ok (Integer (fold_left Z.max zs z))
  | Some [] => Ok (Real nan)
  | None => x <- max s ;; Ok (Real x)
  end.

(** [int(x)] on what a reduction answered. *)
Definition int_of_number (x : number) : result Z :=
  match x with
  | Integer z => Ok z
  | Real f => int_of_float f
  end.

End Pandas.

Import Pandas.

(* ================================================================== *)
(** * The script                                                        *)
(* ================================================================== *)

Module Happy_app.

(** What the widgets hand to one run of the script. *)
Record Inputs : Type := mkInputs {
  selected_countries : list string;   (* st.sidebar.multiselect *)
  year_range : Z * Z;                 (* st.sidebar.slider *)
  trend_var : string;                 (* st.selectbox, Trends tab *)
  score_range : float * float         (* st.slider, Global Map tab *)
}.

(** A piece of text of the page: a literal, or a float under [:.2f]. *)
Inductive text : Type :=
| Lit (s : string)
| F2 (x : float).

(** The figures of the Insights markdown, in the order the f-string
    evaluates them. *)
Record KeyIndicators : Type := mkIndicators {
  average : float;
  highest : float;
  highest_year : cell;
  lowest : float;
  lowest_year : cell;
  average_social_support : float;
  average_healthy_life_expectancy : float;
  average_log_gdp_per_capita : float
}.

(** Where an element goes: the page itself, or one of the five tabs of
    line 56 (the [with tabN:] blocks). *)
Inductive container : Type :=
| Main
| Insights
| Trends
| Global_Map
| Detailed_Metrics
| Comparisons.

(** What a run puts on the page. *)
Inductive element : Type :=
| Write (s : string)
| Metric (name : string) (value : text)
| Markdown (k : KeyIndicators)
| LineChart (df : DataFrame) (y : string)
| Choropleth (df : DataFrame)
| Table (df : DataFrame)
| BarChart (df : DataFrame)
| DownloadButton (csv : Csv).

(** ** Expressions *)

Section Expressions.
Context `{Builtins}.

(** Lines 8-11.  [read_csv] is the outcome of
    [pd.read_csv("World Happiness Report Data - Sheet1.csv")]: the
    exception it raised, or the frame it parsed.  Line 7 memoizes the
    call ([st.cache_data]); every run sees the value computed here. *)
Definition load_data (read_csv : result DataFrame) : result DataFrame :=
  data <- read_csv ;;
  year <- getitem data "year" ;;
  ints <- astype_int year ;;
  Ok (setitem data "year" (map Int ints)).

(** Lines 38-42. *)
Definition filtered_data (data : DataFrame)
    (selected_countries : list string) (year_range : Z * Z)
  : result DataFrame :=
  country <- getitem data "Country name" ;;
  year <- getitem data "year" ;;
  lower <- ge_int year (fst year_range) ;;
  year' <- getitem data "year" ;;
  upper <- le_int year' (snd year_range) ;;
  Ok (getitem_mask data
        (mask_and (mask_and (isin country selected_countries) lower) upper)).

(** Lines 45-47. *)
Definition scores (filtered_data : DataFrame) : result (float * float * float) :=
  ladder <- getitem filtered_data "Life Ladder" ;;
  avg_score <- mean ladder ;;
  ladder' <- getitem filtered_data "Life Ladder" ;;
  min_score <- min ladder' ;;
  ladder'' <- getitem filtered_data "Life Ladder" ;;
  max_score <- max ladder'' ;;
  Ok (avg_score, min_score, max_score).

(** Lines 51-53: [f"{score:.2f}" if not filtered_data.empty else "N/A"]. *)
Definition metric_text (filtered_data : DataFrame) (score : float) : text :=
  if negb (empty filtered_data) then F2 score else Lit "N/A".

(** Lines 45-53: the three metrics, average, lowest, highest. *)
Definition key_statistics (filtered_data : DataFrame)
  : result (text * text * text) :=
  s <- scores filtered_data ;;
  let '(avg_score, min_score, max_score) := s in
  Ok (metric_text filtered_data avg_score,
      metric_text filtered_data min_score,
      metric_text filtered_data max_score).

(** Line 61. *)
Definition country_data (data : DataFrame) (country : string)
  : result DataFrame :=
  name <- getitem data "Country name" ;;
  Ok (getitem_mask data (eq_str name country)).

(** Lines 64-74. *)
Definition key_indicators (country_data : DataFrame) : result KeyIndicators :=
  ladder <- getitem country_data "Life Ladder" ;;
  avg <- mean ladder ;;
  hi <- max ladder ;;
  at_hi <- idxmax ladder ;;
  year_hi <- loc country_data at_hi "year" ;;
  lo <- min ladder ;;
  at_lo <- idxmin ladder ;;
  year_lo <- loc country_data at_lo "year" ;;
  support <- getitem country_data "Social support" ;;
  avg_support <- mean support ;;
  health <- getitem country_data "Healthy life expectancy at birth" ;;
  avg_health <- mean health ;;
  gdp <- getitem country_data "Log GDP per capita" ;;
  avg_gdp <- mean gdp ;;
  Ok (mkIndicators avg hi year_hi lo year_lo avg_support avg_health avg_gdp).

(** Lines 102-106. *)
Definition filtered_global_data (data : DataFrame) (year_range : Z * Z)
    (score_range : float * float) : result DataFrame :=
  year <- getitem data "year" ;;
  let global_data := getitem_mask data (eq_int year (snd year_range)) in
  ladder <- getitem global_data "Life Ladder" ;;
  lower <- ge_float ladder (fst score_range) ;;
  ladder' <- getitem global_data "Life Ladder" ;;
  upper <- le_float ladder' (snd score_range) ;;
  Ok (getitem_mask global_data (mask_and lower upper)).

(** Line 130, right-hand side:
    [name + " (" + year.astype(str) + ")"]. *)
Definition country_year (filtered_data : DataFrame) : result (list cell) :=
  name <- getitem filtered_data "Country name" ;;
  opened <- add_str (values name) " (" ;;
  year <- getitem filtered_data "year" ;;
  dated <- add_strs opened (astype_str year) ;;
  add_str dated ")".

(** Line 29: the options of the country multiselect. *)
Definition country_options (data : DataFrame) : result (list cell) :=
  name <- getitem data "Country name" ;;
  Ok (unique name).

(** Line 34: the bounds of the year slider,
    [int(data['year'].min()), int(data['year'].max())]. *)
Definition year_bounds (data : DataFrame) : result (Z * Z) :=
  year <- getitem data "year" ;;
  least <- min_value year ;;
  lo <- int_of_number least ;;
  year' <- getitem data "year" ;;
  greatest <- max_value year' ;;
  hi <- int_of_number greatest ;;
  Ok (lo, hi).

End Expressions.

(** ** Statements over the store *)

(** The two frames the script binds and the page rendered so far.
    [filtered_data] is unbound until line 38 has run. *)
Record Env : Type := mkEnv {
  var_data : DataFrame;
  var_filtered_data : option DataFrame;
  page : list (container * element)
}.

(** A statement: it may change the store, and either completes or
    raises; what was stored and rendered before a raise stays. *)
Definition Script (A : Type) : Type := Env -> Env * result A.

Definition ret {A} (a : A) : Script A := fun env => (env, Ok a).

Definition seq {A B} (c : Script A) (k : A -> Script B) : Script B :=
  fun env =>
    match c env with
    | (env', Ok a) => k a env'
    | (env', Raise e) => (env', Raise e)
    end.

Definition eval {A} (r : result A) : Script A := fun env => (env, r).

Definition read_data : Script DataFrame :=
  fun env => (env, Ok (var_data env)).

Definition read_filtered_data : Script DataFrame :=
  fun env =>
    (env, match var_filtered_data env with
          | Some fd => Ok fd
          | None => Raise (NameError "filtered_data")
          end).

(** [filtered_data = fd] *)
Definition bind_filtered_data (fd : DataFrame) : Script unit :=
  fun env => (mkEnv (var_data env) (Some fd) (page env), Ok tt).

(** [filtered_data[name] = vals]: the frame the variable refers to is
    changed in place. *)
Definition setitem_filtered_data (name : string) (vals : list cell)
  : Script unit :=
  fun env =>
    match var_filtered_data env with
    | Some fd =>
        (mkEnv (var_data env) (Some (setitem fd name vals)) (page env), Ok tt)
    | None => (env, Raise (NameError "filtered_data"))
    end.

Definition render (inside : container) (e : element) : Script unit :=
  fun env =>
    (mkEnv (var_data env) (var_filtered_data env)
           (page env ++ [(inside, e)])%list, Ok tt).

Declare Scope script_scope.
Delimit Scope script_scope with script.
Notation "x <~ c ;; k" := (seq c (fun x => k))
  (at level 61, c at next level, right associativity) : script_scope.
Notation "c >> k" := (seq c (fun _ => k))
  (at level 61, right associativity) : script_scope.
Open Scope script_scope.

Section Statements.
Context `{Builtins}.
Variable inputs : Inputs.

(** Lines 38-42. *)
Definition filter_data : Script unit :=
  data <~ read_data ;;
  fd <~ eval (filtered_data data (selected_countries inputs)
                (year_range inputs)) ;;
  bind_filtered_data fd.

(** Lines 45-53. *)
Definition key_metrics : Script unit :=
  fd <~ read_filtered_data ;;
  stats <~ eval (key_statistics fd) ;;
  let '(average, lowest, highest) := stats in
  render Main (Write "### 🌟 Key Statistics") >>
  render Main (Metric "Average Happiness" average) >>
  render Main (Metric "Lowest Score" lowest) >>
  render Main (Metric "Highest Score" highest).

(** Lines 59-79. *)
Definition insights_tab : Script unit :=
  if (List.length (selected_countries inputs) =? 1)%nat then
    let country := hd "" (selected_countries inputs) in
    data <~ read_data ;;
    cd <~ eval (country_data data country) ;;
    render Insights (Write ("### Insights for " ++ country ++ ":")) >>
    if negb (empty cd) then
      k <~ eval (key_indicators cd) ;;
      render Insights (Markdown k)
    else render Insights (Write "No data available for this country.")
  else
    render Insights (Write "### Insights") >>
    render Insights (Write "Select a single country for detailed insights.").

(** Lines 82-97. *)
Definition trends_tab : Script unit :=
  if (0 <? List.length (selected_countries inputs))%nat then
    render Trends (Write "### Happiness Score Trends") >>
    fd <~ read_filtered_data ;;
    eval (uses_columns fd ["year"; trend_var inputs; "Country name"]) >>
    render Trends (LineChart fd (trend_var inputs))
  else ret tt.

(** Lines 100-116. *)
Definition global_map_tab : Script unit :=
  render Global_Map (Write "### Global Happiness Map") >>
  data <~ read_data ;;
  fgd <~ eval (filtered_global_data data (year_range inputs)
                 (score_range inputs)) ;;
  eval (uses_columns fgd ["Country name"; "Life Ladder"]) >>
  render Global_Map (Choropleth fgd).

(** Lines 119-124. *)
Definition detailed_metrics_tab : Script unit :=
  render Detailed_Metrics (Write "### Detailed Metrics for Selected Countries") >>
  if (0 <? List.length (selected_countries inputs))%nat then
    fd <~ read_filtered_data ;;
    render Detailed_Metrics (Table fd)
  else render Detailed_Metrics (Write "Select at least one country to view detailed metrics.").

(** Lines 127-142. *)
Definition comparisons_tab : Script unit :=
  render Comparisons (Write "### Side-by-Side Comparison of Selected Countries") >>
  if (1 <? List.length (selected_countries inputs))%nat then
    fd <~ read_filtered_data ;;
    labels <~ eval (country_year fd) ;;
    setitem_filtered_data "Country (Year)" labels >>
    fd' <~ read_filtered_data ;;
    eval (uses_columns fd'
            ["Country (Year)"; "Life Ladder"; "Log GDP per capita";
             "Social support"; "Healthy life expectancy at birth"]) >>
    render Comparisons (BarChart fd')
  else render Comparisons (Write "Select more than one country to compare.").

(** Lines 145-152. *)
Definition download : Script unit :=
  fd <~ read_filtered_data ;;
  let csv := to_csv fd in
  render Main (DownloadButton csv).

(** Lines 37-152, top to bottom. *)
Definition body : Script unit :=
  filter_data >>
  key_metrics >>
  insights_tab >>
  trends_tab >>
  global_map_tab >>
  detailed_metrics_tab >>
  comparisons_tab >>
  download.

End Statements.

(** One run over a loaded dataset: the final store and how the run
    ended. *)
Definition run `{Builtins} (data : DataFrame) (inputs : Inputs)
  : Env * result unit :=
  body inputs (mkEnv data None []).

(** The file the download button offers, when the run reached it. *)
Definition exported (out : Env * result unit) : option Csv :=
  match rev (page (fst out)) with
  | (_, DownloadButton csv) :: _ => Some csv
  | _ => None
  end.

Definition container_eqb (a b : container) : bool :=
  match a, b with
  | Main, Main | Insights, Insights | Trends, Trends
  | Global_Map, Global_Map | Detailed_Metrics, Detailed_Metrics
  | Comparisons, Comparisons => true
  | _, _ => false
  end.

(** What a run rendered inside one container, in order. *)
Definition shown (inside : container) (out : Env * result unit)
  : list element :=
  map snd (filter (fun p => container_eqb (fst p) inside) (page (fst out))).

End Happy_app.

Import Happy_app.

(* ================================================================== *)
(** * Vocabulary of the properties                                      *)
(* ================================================================== *)

Definition is_str (c : cell) : bool :=
  match c with Str _ => true | _ => false end.
Definition is_int (c : cell) : bool :=
  match c with Int _ => true | _ => false end.
Definition is_float (c : cell) : bool :=
  match c with Float _ => true | _ => false end.

(** The frame has the column and every row satisfies [p] there. *)
Definition column_all (p : cell -> bool) (name : string) (df : DataFrame)
  : bool :=
  match position name (columns df) with
  | None => false
  | Some j => forallb (fun r => p (cell_at j r)) (rows df)
  end.

(** A dataset: the six columns the script reads, with the types of the
    data model (a name, an integer year, four float measures in which
    NaN stands for a missing value). *)
Definition dataset (df : DataFrame) : bool :=
  column_all is_str "Country name" df
  && column_all is_int "year" df
  && column_all is_float "Life Ladder" df
  && column_all is_float "Log GDP per capita" df
  && column_all is_float "Social support" df
  && column_all is_float "Healthy life expectancy at birth" df.

(** The value of a record in a named column of its frame. *)
Definition field (df : DataFrame) (name : string) (r : Row) : cell :=
  match position name (columns df) with
  | Some j => cell_at j r
  | None => NaN
  end.

(** The criterion of the filter: the record's country is one of
    [countries] and its year lies in [year_min, year_max]. *)
Definition matches (df : DataFrame) (countries : list string)
    (year_min year_max : Z) (r : Row) : Prop :=
  exists c y,
    field df "Country name" r = Str c /\ In c countries /\
    field df "year" r = Int y /\ year_min <= y <= year_max.

(** [l1] is [l2] with some entries left out, the others in place. *)
Inductive Subsequence {A : Type} : list A -> list A -> Prop :=
| Subsequence_nil : Subsequence [] []
| Subsequence_keep x l1 l2 :
    Subsequence l1 l2 -> Subsequence (x :: l1) (x :: l2)
| Subsequence_drop x l1 l2 :
    Subsequence l1 l2 -> Subsequence l1 (x :: l2).

(** [a] stands somewhere before [b] in [l]. *)
Definition before {A : Type} (a b : A) (l : list A) : Prop :=
  exists l1 l2 l3, l = (l1 ++ a :: l2 ++ b :: l3)%list.

(** The scenario dataset: Mongolia 2015 and 2016, Finland 2015. *)
Definition scenario : DataFrame :=
  mkFrame
    ["Country name"; "year"; "Life Ladder"; "Log GDP per capita";
     "Social support"; "Healthy life expectancy at birth"]
    [ mkRow 0 [Str "Mongolia"; Int 2015; Float 4.5; Float 9.25; Float 0.75;
               Float 60];
      mkRow 1 [Str "Mongolia"; Int 2016; Float 5.0; NaN; Float 0.875;
               Float 61];
      mkRow 2 [Str "Finland"; Int 2015; Float 7.5; Float 10.5; Float 0.9375;
               Float 71] ].

(** Builtins for evaluating the script on data such as [scenario]:
    [int(s)] on plain decimal numerals, [OverflowError] when the integer
    does not fit an int64, [ValueError] on any other text.  No example
    below turns a float into text (every year that reaches line 130 is
    an integer), so [str_of_float] is never called; it is left a
    constant. *)
Definition plain_builtins : Builtins :=
  {| int_of_str := fun s =>
       match NilZero.int_of_string s with
       | Some d =>
           if in_int64 (Z.of_int d) then Ok (Z.of_int d)
           else Raise OverflowError
       | None => Raise ValueError
       end;
     str_of_float := fun _ => "nan" |}.

(** The filter's test on one record, as lines 39-41 compute it. *)
Definition keeps (df : DataFrame) (countries : list string)
    (year_min year_max : Z) (r : Row) : bool :=
  match field df "Country name" r, field df "year" r with
  | Str c, Int y =>
      existsb (String.eqb c) countries && (year_min <=? y) && (y <=? year_max)
  | _, _ => false
  end.

(** The sentinel the metrics show in place of a number. *)
Definition unavailable : text := Lit "N/A".

(** A missing value: the float NaN. *)
Definition missing (c : cell) : bool :=
  match c with Float f => is_nan f | _ => false end.

(** The numbers of a column of a view, record by record. *)
Definition measures (view : DataFrame) (name : string) : list float :=
  map (fun r => match field view name r with
                | Float f => f
                | Int z => float_of_int z
                | Str _ => nan
                end) (rows view).

(** The present values of a column: those that are not NaN. *)
Definition present (xs : list float) : list float :=
  filter (fun x => negb (is_nan x)) xs.

(** [total] is a floating-point sum of the numbers of [xs]: every one
    of them added, once, in some order and under some bracketing.  A
    zero may be added along the way; it changes no sum but the sign of
    a zero. *)
Inductive sum_of : list float -> float -> Prop :=
| sum_of_zero : sum_of [] 0%float
| sum_of_neg_zero : sum_of [] (-0)%float
| sum_of_one x : sum_of [x] x
| sum_of_add xs ys s t :
    sum_of xs s -> sum_of ys t -> sum_of (xs ++ ys)%list (s + t)%float
| sum_of_perm xs ys s : Permutation xs ys -> sum_of xs s -> sum_of ys s.

(** [m] is a mean of the numbers of [xs]: a sum of them over their
    count. *)
Definition mean_of (xs : list float) (m : float) : Prop :=
  exists total,
    sum_of xs total /\
    m = (total / float_of_int (Z.of_nat (List.length xs)))%float.

(** [m] is a least (greatest) number of [xs]: one of them, and no other
    is below (above) it. *)
Definition least_of (xs : list float) (m : float) : Prop :=
  In m xs /\ forall x, In x xs -> (m <=? x)%float = true.

Definition greatest_of (xs : list float) (m : float) : Prop :=
  In m xs /\ forall x, In x xs -> (x <=? m)%float = true.

(** The place of a number on the line: below zero, zero or above, then
    exponent and mantissa.  The two zeros share a place. *)
Definition SFrank (f : spec_float) : Z * Z * Z :=
  match f with
  | S754_infinity true => (-2, 0, 0)
  | S754_finite true m e => (-1, - e, - Z.pos m)
  | S754_zero _ | S754_nan => (0, 0, 0)
  | S754_finite false m e => (1, e, Z.pos m)
  | S754_infinity false => (2, 0, 0)
  end.

Definition rank (x : float) : Z * Z * Z := SFrank (Prim2SF x).

Definition lex_le (p q : Z * Z * Z) : Prop :=
  let '(a, b, c) := p in
  let '(a', b', c') := q in
  a < a' \/ (a = a' /\ (b < b' \/ (b = b' /\ c <= c'))).

(** The eight running sums of [add_lanes] are sums of the numbers of
    [l], shared out among them. *)
Definition lanes_of (l : list float) (r : lanes) : Prop :=
  let '(r0, r1, r2, r3, r4, r5, r6, r7) := r in
  exists l0 l1 l2 l3 l4 l5 l6 l7,
    sum_of l0 r0 /\ sum_of l1 r1 /\ sum_of l2 r2 /\ sum_of l3 r3 /\
    sum_of l4 r4 /\ sum_of l5 r5 /\ sum_of l6 r6 /\ sum_of l7 r7 /\
    Permutation (l0 ++ l1 ++ l2 ++ l3 ++ l4 ++ l5 ++ l6 ++ l7)%list l.

(** A view of one record whose Life Ladder is missing. *)
Definition all_missing : DataFrame :=
  mkFrame
    ["Country name"; "year"; "Life Ladder"; "Log GDP per capita";
     "Social support"; "Healthy life expectancy at birth"]
    [ mkRow 0 [Str "Mongolia"; Int 2015; NaN; Float 9.25; Float 0.75;
               Float 60] ].

(** A view whose Life Ladder column reads 5.0, missing, 7.0. *)
Definition five_missing_seven : DataFrame :=
  mkFrame
    ["Country name"; "year"; "Life Ladder"; "Log GDP per capita";
     "Social support"; "Healthy life expectancy at birth"]
    [ mkRow 0 [Str "Mongolia"; Int 2015; Float 5.0; Float 9.25; Float 0.75;
               Float 60];
      mkRow 1 [Str "Mongolia"; Int 2016; NaN; Float 9.5; Float 0.875;
               Float 61];
      mkRow 2 [Str "Mongolia"; Int 2017; Float 7.0; Float 9.75; Float 0.9375;
               Float 62] ].




(** A parsed file whose year column is uint64: one year is 2^64 - 1. *)
Definition uint64_year : DataFrame :=
  mkFrame ["Country name"; "year"; "Life Ladder"]
    [ mkRow 0 [Str "Mongolia"; Int 2015; Float 4.5];
      mkRow 1 [Str "Finland"; Int 18446744073709551615; Float 7.5] ].

(** A parsed file with a year beyond 64 bits, as an integer and as the
    text [read_csv] keeps of such a numeral. *)
Definition huge_year : DataFrame :=
  mkFrame ["Country name"; "year"; "Life Ladder"]
    [ mkRow 0 [Str "Mongolia"; Int 99999999999999999999999; Float 4.5] ].

Definition huge_text_year : DataFrame :=
  mkFrame ["Country name"; "year"; "Life Ladder"]
    [ mkRow 0 [Str "Mongolia"; Str "99999999999999999999999"; Float 4.5] ].

(** A parsed file whose years were read as floats. *)
Definition float_year : DataFrame :=
  mkFrame ["Country name"; "year"; "Life Ladder"]
    [ mkRow 0 [Str "Mongolia"; Float 2015; Float 4.5];
      mkRow 1 [Str "Finland"; Float 2016.5; Float 7.5] ].

(** ** Effects of a statement on the store *)

(** A statement respects a relation between the store before and the
    store after, whether it completes or raises. *)
Definition respects {A} (R : Env -> Env -> Prop) (s : Script A) : Prop :=
  forall env, R env (fst (s env)).

(** The dataset is the same frame. *)
Definition same_data (before after : Env) : Prop :=
  var_data after = var_data before.

(** The filtered view is the same frame (or still unbound). *)
Definition same_view (before after : Env) : Prop :=
  var_filtered_data after = var_filtered_data before.

(** The page has grown by elements of containers in [P] only. *)
Definition grows_in (P : container -> Prop) (before after : Env) : Prop :=
  exists added,
    page after = (page before ++ added)%list /\
    Forall (fun p => P (fst p)) added.

(** A dataset of two countries over the years 2010 and 2023, and the
    widgets as they stand once Finland is added to the selection: the
    default year range, metric and score range. *)
Definition two_countries : DataFrame :=
  mkFrame
    ["Country name"; "year"; "Life Ladder"; "Log GDP per capita";
     "Social support"; "Healthy life expectancy at birth"]
    [ mkRow 0 [Str "Finland"; Int 2010; Float 7.5; Float 10.5; Float 0.9375;
               Float 70];
      mkRow 1 [Str "Finland"; Int 2023; Float 7.75; Float 10.75; Float 0.9375;
               Float 71];
      mkRow 2 [Str "Mongolia"; Int 2010; Float 4.5; Float 9.0; Float 0.875;
               Float 59];
      mkRow 3 [Str "Mongolia"; Int 2023; Float 5.5; Float 9.5; Float 0.9375;
               Float 61] ].

Definition compare_two : Inputs :=
  mkInputs ["Mongolia"; "Finland"] (2010, 2023) "Life Ladder"
           (0.0, 10.0)%float.

(** The same inputs under another year range. *)
Definition with_years (inputs : Inputs) (years : Z * Z) : Inputs :=
  mkInputs (selected_countries inputs) years (trend_var inputs)
           (score_range inputs).

(** The number a record holds in a column (NaN for a text). *)
Definition measure (view : DataFrame) (name : string) (r : Row) : float :=
  match field view name r with
  | Float f => f
  | Int z => float_of_int z
  | Str _ => nan
  end.

(** The numbers of a column with the labels of their records. *)
Definition labelled (view : DataFrame) (name : string) : list (Z * float) :=
  map (fun r => (label r, measure view name r)) (rows view).

(** The test of the Global Map on one record, as lines 102-106 compute
    it: the year is the upper end of the range and the Life Ladder lies
    in the score range. *)
Definition on_map (data : DataFrame) (year_range : Z * Z)
    (score_range : float * float) (r : Row) : Prop :=
  field data "year" r = Int (snd year_range) /\
  exists f, field data "Life Ladder" r = Float f /\
            (fst score_range <=? f)%float = true /\
            (f <=? snd score_range)%float = true.

(** A dataset in which one country has rows but no Life Ladder value. *)
Definition unscored : DataFrame :=
  mkFrame
    ["Country name"; "year"; "Life Ladder"; "Log GDP per capita";
     "Social support"; "Healthy life expectancy at birth"]
    [ mkRow 0 [Str "Finland"; Int 2010; Float 7.5; Float 10.5; Float 0.9375;
               Float 70];
      mkRow 1 [Str "Kosovo"; Int 2010; NaN; Float 9.0; Float 0.875; NaN];
      mkRow 2 [Str "Kosovo"; Int 2023; NaN; Float 9.25; Float 0.875; NaN];
      mkRow 3 [Str "Finland"; Int 2023; Float 7.75; Float 10.75;
               Float 0.9375; Float 71] ].

(** The label line 130 builds for one record: its country, then its
    year between brackets. *)
Definition country_year_label (view : DataFrame) (r : Row) : cell :=
  match field view "Country name" r, field view "year" r with
  | Str c, Int y => Str (((c ++ " (") ++ str_of_int y) ++ ")")
  | _, _ => NaN
  end.

(** The page has grown by elements that satisfy [Q] only. *)
Definition grows_by (Q : container * element -> Prop) (before after : Env)
  : Prop :=
  exists added,
    page after = (page before ++ added)%list /\ Forall Q added.

Definition not_download (p : container * element) : Prop :=
  match snd p with
  | DownloadButton _ => False
  | _ => True
  end.

(* ================================================================== *)
(** * Lists, masks and the error monad                                  *)
(* ================================================================== *)

Section ListFacts.
Context {A B : Type}.

Lemma mapM_pure (f : A -> result B) (g : A -> B) (l : list A) :
  (forall x, In x l -> f x = Ok (g x)) -> mapM f l = Ok (map g l).
Proof.
  induction l as [|x l IH]; intros Hf; simpl; [reflexivity|].
  rewrite (Hf x (or_introl eq_refl)), IH; [reflexivity|].
  intros y Hy. apply Hf. now right.
Qed.



Lemma mapM_length (f : A -> result B) (l : list A) (ys : list B) :
  mapM f l = Ok ys -> List.length ys = List.length l.
Proof.
  revert ys. induction l as [|x l IH]; simpl; intros ys Hy.
  - now inversion Hy.
  - destruct (f x); [|discriminate].
    destruct (mapM f l); [|discriminate].
    inversion Hy; subst. simpl. now rewrite (IH _ eq_refl).
Qed.

Lemma mask_and_map (f g : A -> bool) (l : list A) :
  mask_and (map f l) (map g l) = map (fun x => f x && g x) l.
Proof. induction l; simpl; congruence. Qed.

Lemma select_map (f : A -> bool) (l : list A) :
  select l (map f l) = filter f l.
Proof.
  induction l as [|x l IH]; simpl; [reflexivity|].
  destruct (f x); now rewrite IH.
Qed.

Lemma Subsequence_nil_l (l : list A) : Subsequence [] l.
Proof. induction l; constructor; assumption. Qed.

Lemma Subsequence_refl (l : list A) : Subsequence l l.
Proof. induction l; constructor; assumption. Qed.

Lemma Subsequence_In (l1 l2 : list A) :
  Subsequence l1 l2 -> forall x, In x l1 -> In x l2.
Proof.
  induction 1 as [|y l1 l2 _ IH|y l1 l2 _ IH]; simpl; intros x Hx.
  - exact Hx.
  - destruct Hx as [->|Hx]; [now left | right; now apply IH].
  - right. now apply IH.
Qed.

(** A subsequence of a concatenation splits along it. *)
Lemma Subsequence_app_inv (l1 l2 l : list A) :
  Subsequence (l1 ++ l2) l ->
  exists m1 m2, l = (m1 ++ m2)%list /\ Subsequence l1 m1 /\ Subsequence l2 m2.
Proof.
  intros Hs. remember (l1 ++ l2)%list as k eqn:Hk.
  revert l1 l2 Hk.
  induction Hs as [|x k l Hs IH|x k l Hs IH]; intros l1 l2 Hk.
  - destruct l1; [|discriminate]. destruct l2; [|discriminate].
    exists [], []. repeat split; constructor.
  - destruct l1 as [|a l1]; simpl in Hk.
    + exists [], (x :: l). subst l2.
      repeat split; [constructor | now constructor].
    + injection Hk as -> ->.
      destruct (IH l1 l2 eq_refl) as (m1 & m2 & -> & H1 & H2).
      exists (a :: m1), m2. repeat split; [now constructor | assumption].
  - destruct (IH l1 l2 Hk) as (m1 & m2 & -> & H1 & H2).
    exists (x :: m1), m2. repeat split; [now constructor | assumption].
Qed.

Lemma Subsequence_cons_inv (a : A) (l1 l : list A) :
  Subsequence (a :: l1) l ->
  exists m1 m2, l = (m1 ++ a :: m2)%list /\ Subsequence l1 m2.
Proof.
  intros Hs. remember (a :: l1) as k eqn:Hk. revert Hk.
  induction Hs as [|x k l Hs IH|x k l Hs IH]; intros Hk.
  - discriminate.
  - injection Hk as -> ->. exists [], l. split; [reflexivity | assumption].
  - destruct (IH Hk) as (m1 & m2 & -> & H2).
    exists (x :: m1), m2. split; [reflexivity | assumption].
Qed.

(** A subsequence keeps the relative order of its entries. *)
Lemma Subsequence_before (l1 l2 : list A) (a b : A) :
  Subsequence l1 l2 -> before a b l1 -> before a b l2.
Proof.
  intros Hs (k1 & k2 & k3 & ->).
  apply Subsequence_app_inv in Hs as (m1 & m & -> & _ & Hs).
  apply Subsequence_cons_inv in Hs as (n1 & n & -> & Hs).
  apply Subsequence_app_inv in Hs as (p1 & p & -> & _ & Hs).
  apply Subsequence_cons_inv in Hs as (q1 & q & -> & _).
  exists (m1 ++ n1)%list, (p1 ++ q1)%list, q.
  now rewrite <- !app_assoc.
Qed.

Lemma Subsequence_In_trans (l1 l2 l3 : list A) :
  Subsequence l1 l2 -> Subsequence l2 l3 -> Subsequence l1 l3.
Proof.
  intros H12 H23. revert l1 H12.
  induction H23 as [|x l2 l3 H23 IH|x l2 l3 H23 IH]; intros l1 H12.
  - exact H12.
  - inversion H12; subst; constructor; now apply IH.
  - constructor. now apply IH.
Qed.

Lemma filter_Subsequence (f : A -> bool) (l : list A) :
  Subsequence (filter f l) l.
Proof.
  induction l as [|x l IH]; simpl; [constructor|].
  destruct (f x); now constructor.
Qed.

End ListFacts.

(* ================================================================== *)
(** * The filter (lines 38-42)                                          *)
(* ================================================================== *)

Lemma column_all_position p name df :
  column_all p name df = true ->
  exists j, position name (columns df) = Some j /\
            forall r, In r (rows df) -> p (cell_at j r) = true.
Proof.
  unfold column_all. destruct (position name (columns df)) as [j|];
    [|discriminate].
  intros Hall. exists j. split; [reflexivity|].
  now apply forallb_forall.
Qed.

Lemma dataset_columns df :
  dataset df = true ->
  column_all is_str "Country name" df = true /\
  column_all is_int "year" df = true /\
  column_all is_float "Life Ladder" df = true /\
  column_all is_float "Log GDP per capita" df = true /\
  column_all is_float "Social support" df = true /\
  column_all is_float "Healthy life expectancy at birth" df = true.
Proof.
  unfold dataset. rewrite !andb_true_iff. tauto.
Qed.

Lemma keeps_matches df countries year_min year_max r :
  keeps df countries year_min year_max r = true <->
  matches df countries year_min year_max r.
Proof.
  unfold keeps, matches.
  destruct (field df "Country name" r) as [c|z|f];
    try (split; [discriminate | intros (c' & y & Hc & _); discriminate]).
  destruct (field df "year" r) as [s|y|f];
    try (split; [discriminate | intros (c' & y' & _ & _ & Hy & _); discriminate]).
  rewrite !andb_true_iff, existsb_exists, !Z.leb_le. split.
  - intros [[(x & Hx & Heq) Hlo] Hhi]. apply String.eqb_eq in Heq. subst x.
    exists c, y. auto.
  - intros (c' & y' & Hc & Hin & Hy & Hlo & Hhi).
    injection Hc as <-. injection Hy as <-.
    repeat split; try assumption.
    exists c. split; [assumption | apply String.eqb_refl].
Qed.

(** On a frame that has both columns, the year an integer in every row,
    the filter returns the frame of the rows that pass [keeps]. *)
Lemma filtered_data_filter data countries year_min year_max jc :
  position "Country name" (columns data) = Some jc ->
  column_all is_int "year" data = true ->
  filtered_data data countries (year_min, year_max)
  = Ok (mkFrame (columns data)
          (filter (keeps data countries year_min year_max) (rows data))).
Proof.
  intros Hjc Hyear.
  destruct (column_all_position _ _ _ Hyear) as (jy & Hjy & Hint).
  unfold filtered_data, getitem, ge_int, le_int, isin, values.
  rewrite Hjc, Hjy. cbn [bind fst snd]. rewrite !map_map. cbn [snd].
  rewrite (mapM_pure (ge_int_cell year_min)
             (fun c => match c with Int z => year_min <=? z | _ => false end)),
          (mapM_pure (le_int_cell year_max)
             (fun c => match c with Int z => z <=? year_max | _ => false end)).
  - cbn [bind]. rewrite !map_map.
    unfold getitem_mask. cbn [columns rows].
    rewrite !mask_and_map, select_map. f_equal. f_equal.
    apply filter_ext_in. intros r Hr.
    unfold keeps, field. rewrite Hjc, Hjy.
    specialize (Hint r Hr).
    destruct (cell_at jy r); try discriminate.
    destruct (cell_at jc r); reflexivity.
  - intros c Hc. apply in_map_iff in Hc as (r & <- & Hr).
    specialize (Hint r Hr). destruct (cell_at jy r); try discriminate.
    reflexivity.
  - intros c Hc. apply in_map_iff in Hc as (r & <- & Hr).
    specialize (Hint r Hr). destruct (cell_at jy r); try discriminate.
    reflexivity.
Qed.

Lemma dataset_filtered_data data countries year_min year_max :
  dataset data = true ->
  filtered_data data countries (year_min, year_max)
  = Ok (mkFrame (columns data)
          (filter (keeps data countries year_min year_max) (rows data))).
Proof.
  intros Hd. apply dataset_columns in Hd as (Hc & Hy & _).
  destruct (column_all_position _ _ _ Hc) as (jc & Hjc & _).
  now apply filtered_data_filter with (jc := jc).
Qed.

(** C1.  For every dataset, every list of selected country names and
    every inclusive year range, the filter returns a view, and a record
    is in the view if and only if it is a record of the dataset whose
    country is one of the selected names and whose year lies in the
    range. *)
Theorem filter_includes_iff data countries year_min year_max :
  dataset data = true ->
  exists view,
    filtered_data data countries (year_min, year_max) = Ok view /\
    forall r, In r (rows view) <->
              In r (rows data) /\ matches data countries year_min year_max r.
Proof.
  intros Hd. eexists. split.
  - now apply dataset_filtered_data.
  - intros r. cbn [rows]. rewrite filter_In, keeps_matches. reflexivity.
Qed.

Lemma filter_includes_iff_witness :
  dataset scenario = true /\
  exists view,
    filtered_data scenario ["Mongolia"] (2010, 2023) = Ok view /\
    forall r, In r (rows view) <->
              In r (rows scenario) /\ matches scenario ["Mongolia"] 2010 2023 r.
Proof.
  split; [reflexivity|].
  apply (filter_includes_iff scenario ["Mongolia"] 2010 2023). reflexivity.
Defined.

Lemma filter_none {A} (f : A -> bool) (l : list A) :
  (forall x, In x l -> f x = false) -> filter f l = [].
Proof.
  induction l as [|x l IH]; simpl; intros Hf; [reflexivity|].
  rewrite (Hf x (or_introl eq_refl)). apply IH. intros y Hy. apply Hf. now right.
Qed.

Lemma filter_Subsequence_impl {A} (f g : A -> bool) (l : list A) :
  (forall x, In x l -> f x = true -> g x = true) ->
  Subsequence (filter f l) (filter g l).
Proof.
  induction l as [|x l IH]; simpl; intros Hfg; [constructor|].
  assert (Hl : forall y, In y l -> f y = true -> g y = true)
    by (intros y Hy; apply Hfg; now right).
  destruct (f x) eqn:Hfx.
  - rewrite (Hfg x (or_introl eq_refl) Hfx). constructor. now apply IH.
  - destruct (g x); [constructor|]; now apply IH.
Qed.

(** C6.  The filter does not fail on degenerate criteria: on every
    dataset it returns a view, and the view is empty when no country is
    selected, when [year_min > year_max], and when no selected name is
    the country of any record. *)
Theorem filter_degenerate_criteria data countries year_min year_max :
  dataset data = true ->
  exists view,
    filtered_data data countries (year_min, year_max) = Ok view /\
    (countries = [] -> rows view = []) /\
    (year_max < year_min -> rows view = []) /\
    ((forall c r, In c countries -> In r (rows data) ->
        field data "Country name" r <> Str c) -> rows view = []).
Proof.
  intros Hd. eexists. split; [now apply dataset_filtered_data|].
  cbn [rows]. repeat split.
  - intros ->. apply filter_none. intros r _. unfold keeps.
    destruct (field data "Country name" r); try reflexivity.
    destruct (field data "year" r); reflexivity.
  - intros Hlt. apply filter_none. intros r _. unfold keeps.
    destruct (field data "Country name" r); try reflexivity.
    destruct (field data "year" r) as [|y|]; try reflexivity.
    destruct (year_min <=? y) eqn:Hlo, (y <=? year_max) eqn:Hhi;
      rewrite ?andb_false_r; try reflexivity.
    apply Z.leb_le in Hlo, Hhi. lia.
  - intros Hunknown. apply filter_none. intros r Hr.
    destruct (keeps data countries year_min year_max r) eqn:Hk;
      [|reflexivity].
    apply keeps_matches in Hk as (c & y & Hc & Hin & _).
    destruct (Hunknown c r Hin Hr Hc).
Qed.

Lemma filter_degenerate_criteria_witness :
  dataset scenario = true /\
  exists view,
    filtered_data scenario ["Atlantis"] (2023, 2000) = Ok view /\
    (["Atlantis"] = [] -> rows view = []) /\
    (2000 < 2023 -> rows view = []) /\
    ((forall c r, In c ["Atlantis"] -> In r (rows scenario) ->
        field scenario "Country name" r <> Str c) -> rows view = []).
Proof.
  split; [reflexivity|].
  apply (filter_degenerate_criteria scenario ["Atlantis"] 2023 2000).
  reflexivity.
Defined.

(** C7.  The view is an order-preserving subsequence of the dataset:
    every record of the view is a record of the dataset, and two records
    of the view stand in the dataset in the same relative order. *)
Theorem filter_subsequence data countries year_min year_max :
  dataset data = true ->
  exists view,
    filtered_data data countries (year_min, year_max) = Ok view /\
    columns view = columns data /\
    Subsequence (rows view) (rows data) /\
    (forall r, In r (rows view) -> In r (rows data)) /\
    (forall a b, before a b (rows view) -> before a b (rows data)).
Proof.
  intros Hd. eexists. split; [now apply dataset_filtered_data|].
  cbn [rows columns].
  pose proof (filter_Subsequence (keeps data countries year_min year_max)
                (rows data)) as Hs.
  repeat split.
  - exact Hs.
  - now apply Subsequence_In.
  - intros a b. now apply Subsequence_before.
Qed.

Lemma filter_subsequence_witness :
  dataset scenario = true /\
  exists view,
    filtered_data scenario ["Mongolia"] (2010, 2023) = Ok view /\
    columns view = columns scenario /\
    Subsequence (rows view) (rows scenario) /\
    (forall r, In r (rows view) -> In r (rows scenario)) /\
    (forall a b, before a b (rows view) -> before a b (rows scenario)).
Proof.
  split; [reflexivity|].
  apply (filter_subsequence scenario ["Mongolia"] 2010 2023). reflexivity.
Defined.

(** C8.  The filter is monotone in the year range: when
    [y1_min <= y0_min] and [y0_max <= y1_max], every record the range
    [y0_min, y0_max] includes is included by [y1_min, y1_max] too, and
    the narrow view is a subsequence of the wide one. *)
Theorem filter_monotone data countries y0_min y0_max y1_min y1_max :
  dataset data = true ->
  y1_min <= y0_min -> y0_max <= y1_max ->
  exists narrow wide,
    filtered_data data countries (y0_min, y0_max) = Ok narrow /\
    filtered_data data countries (y1_min, y1_max) = Ok wide /\
    (forall r, In r (rows narrow) -> In r (rows wide)) /\
    Subsequence (rows narrow) (rows wide).
Proof.
  intros Hd Hmin Hmax. do 2 eexists.
  split; [now apply dataset_filtered_data|].
  split; [now apply dataset_filtered_data|].
  cbn [rows].
  assert (Hwide : forall r, In r (rows data) ->
            keeps data countries y0_min y0_max r = true ->
            keeps data countries y1_min y1_max r = true).
  { intros r _ Hk. apply keeps_matches in Hk as (c & y & Hc & Hin & Hy & Hr).
    apply keeps_matches. exists c, y. repeat split; try assumption; lia. }
  split.
  - intros r Hr. apply filter_In in Hr as [Hr Hk].
    apply filter_In. split; [assumption | now apply Hwide].
  - now apply filter_Subsequence_impl.
Qed.

Lemma filter_monotone_witness :
  dataset scenario = true /\ 2010 <= 2016 /\ 2016 <= 2023 /\
  exists narrow wide,
    filtered_data scenario ["Mongolia"] (2016, 2016) = Ok narrow /\
    filtered_data scenario ["Mongolia"] (2010, 2023) = Ok wide /\
    (forall r, In r (rows narrow) -> In r (rows wide)) /\
    Subsequence (rows narrow) (rows wide).
Proof.
  split; [reflexivity|]. split; [lia|]. split; [lia|].
  apply (filter_monotone scenario ["Mongolia"] 2016 2016 2010 2023);
    [reflexivity | lia | lia].
Defined.

(* ================================================================== *)
(** * Floating-point numbers: NaN, order, sums                          *)
(* ================================================================== *)

Lemma SFeqb_irrefl_nan x : SFeqb x x = false -> x = S754_nan.
Proof.
  destruct x as [s|s| |s m e]; unfold SFeqb; cbn [SFcompare];
    try (destruct s; discriminate); try reflexivity.
  destruct s; rewrite Z.compare_refl, Pos.compare_cont_refl; discriminate.
Qed.

Lemma is_nan_Prim2SF f : is_nan f = true -> Prim2SF f = S754_nan.
Proof.
  unfold is_nan. rewrite eqb_spec. intros Hn.
  apply SFeqb_irrefl_nan. now apply negb_true_iff.
Qed.

Lemma Prim2SF_number x : is_nan x = false -> Prim2SF x <> S754_nan.
Proof.
  unfold is_nan. rewrite eqb_spec. intros Hn E. rewrite E in Hn. discriminate.
Qed.

(** NaN is neither below nor above anything. *)
Lemma leb_nan_r k f : is_nan f = true -> (k <=? f)%float = false.
Proof.
  intros Hn. rewrite leb_spec, (is_nan_Prim2SF _ Hn). unfold SFleb.
  destruct (Prim2SF k); reflexivity.
Qed.

Lemma leb_nan_l k f : is_nan f = true -> (f <=? k)%float = false.
Proof.
  intros Hn. rewrite leb_spec, (is_nan_Prim2SF _ Hn). reflexivity.
Qed.

(** ** The order of the numbers *)

Lemma lex_le_refl p : lex_le p p.
Proof. destruct p as [[a b] c]. cbn. lia. Qed.

Lemma lex_le_trans p q r : lex_le p q -> lex_le q r -> lex_le p r.
Proof.
  destruct p as [[a b] c], q as [[a' b'] c'], r as [[a'' b''] c'']. cbn. lia.
Qed.

Lemma lex_le_total p q : lex_le p q \/ lex_le q p.
Proof. destruct p as [[a b] c], q as [[a' b'] c']. cbn. lia. Qed.

Lemma lex_le_dec p q : lex_le p q \/ ~ lex_le p q.
Proof. destruct p as [[a b] c], q as [[a' b'] c']. cbn. lia. Qed.

(** The comparison of two numbers is the comparison of their places. *)
Lemma SFcompare_rank f g :
  f <> S754_nan -> g <> S754_nan ->
  exists c, SFcompare f g = Some c /\
    (c <> Gt <-> lex_le (SFrank f) (SFrank g)) /\
    (c = Lt <-> ~ lex_le (SFrank g) (SFrank f)).
Proof.
  intros Hf Hg.
  destruct f as [s|s| |s m e]; [| |contradiction|];
    (destruct g as [s'|s'| |s' m' e']; [| |contradiction|]);
    try destruct s; try destruct s'; cbn [SFcompare SFrank lex_le];
    try (eexists; split; [reflexivity|]; split; split;
         solve [ congruence | lia | intros _; lia | intros _; congruence
               | intros; exfalso; lia ]).
  - change (PosDef.Pos.compare_cont Eq m m') with (Pos.compare m m').
    eexists; split; [reflexivity|].
    destruct (Z.compare_spec e e'), (Pos.compare_spec m m'); cbn [CompOpp];
      split; split; try congruence; try lia; try (intros _; lia);
      try (intros _; congruence); try (intros; exfalso; lia).
  - change (PosDef.Pos.compare_cont Eq m m') with (Pos.compare m m').
    eexists; split; [reflexivity|].
    destruct (Z.compare_spec e e'), (Pos.compare_spec m m'); cbn [CompOpp];
      split; split; try congruence; try lia; try (intros _; lia);
      try (intros _; congruence); try (intros; exfalso; lia).
Qed.

Lemma leb_rank x y :
  is_nan x = false -> is_nan y = false ->
  (x <=? y)%float = true <-> lex_le (rank x) (rank y).
Proof.
  intros Hx Hy. rewrite leb_spec. unfold SFleb, rank.
  destruct (SFcompare_rank _ _ (Prim2SF_number _ Hx) (Prim2SF_number _ Hy))
    as (c & -> & <- & _).
  destruct c; split; congruence.
Qed.

Lemma ltb_rank x y :
  is_nan x = false -> is_nan y = false ->
  (x <? y)%float = true <-> ~ lex_le (rank y) (rank x).
Proof.
  intros Hx Hy. rewrite ltb_spec. unfold SFltb, rank.
  destruct (SFcompare_rank _ _ (Prim2SF_number _ Hx) (Prim2SF_number _ Hy))
    as (c & -> & _ & <-).
  destruct c; split; congruence.
Qed.


(** [<=?] is reflexive, transitive and total away from NaN, and [<?] is
    its strict part. *)
Lemma leb_refl x : is_nan x = false -> (x <=? x)%float = true.
Proof. intros Hx. apply leb_rank; [assumption..|]. apply lex_le_refl. Qed.

Lemma leb_trans x y z :
  is_nan x = false -> is_nan y = false -> is_nan z = false ->
  (x <=? y)%float = true -> (y <=? z)%float = true -> (x <=? z)%float = true.
Proof.
  intros Hx Hy Hz Hxy Hyz. apply leb_rank; [assumption..|].
  apply leb_rank in Hxy, Hyz; try assumption.
  now apply lex_le_trans with (rank y).
Qed.

Lemma ltb_leb x y :
  is_nan x = false -> is_nan y = false ->
  (x <? y)%float = true -> (x <=? y)%float = true.
Proof.
  intros Hx Hy Hlt. apply leb_rank; [assumption..|].
  apply ltb_rank in Hlt; try assumption.
  destruct (lex_le_total (rank x) (rank y)); [assumption | contradiction].
Qed.

Lemma nltb_leb x y :
  is_nan x = false -> is_nan y = false ->
  (x <? y)%float = false -> (y <=? x)%float = true.
Proof.
  intros Hx Hy Hlt. apply leb_rank; [assumption..|].
  destruct (lex_le_dec (rank y) (rank x)) as [|Hd]; [assumption|].
  apply (ltb_rank x y Hx Hy) in Hd. congruence.
Qed.


(** ** The running extremum of a list of numbers *)

Section Extremum.
Variable le : float -> float -> bool.
Variable pick : float -> float -> float.
Hypothesis le_refl : forall x, is_nan x = false -> le x x = true.
Hypothesis le_trans : forall x y z,
  is_nan x = false -> is_nan y = false -> is_nan z = false ->
  le x y = true -> le y z = true -> le x z = true.
Hypothesis pick_either : forall a b, pick a b = a \/ pick a b = b.
Hypothesis pick_le_l : forall a b,
  is_nan a = false -> is_nan b = false -> le (pick a b) a = true.
Hypothesis pick_le_r : forall a b,
  is_nan a = false -> is_nan b = false -> le (pick a b) b = true.

Lemma pick_number a b :
  is_nan a = false -> is_nan b = false -> is_nan (pick a b) = false.
Proof. intros Ha Hb. destruct (pick_either a b) as [-> | ->]; assumption. Qed.

Lemma fold_left_pick_extremum xs : forall x,
  (forall y, In y (x :: xs) -> is_nan y = false) ->
  In (fold_left pick xs x) (x :: xs) /\
  forall y, In y (x :: xs) -> le (fold_left pick xs x) y = true.
Proof.
  induction xs as [|z xs IH]; intros x Hnum; cbn [fold_left].
  - split; [now left|]. intros y [<-|[]]. apply le_refl, Hnum. now left.
  - assert (Hx : is_nan x = false) by (apply Hnum; now left).
    assert (Hz : is_nan z = false) by (apply Hnum; right; now left).
    assert (Hp : is_nan (pick x z) = false) by now apply pick_number.
    destruct (IH (pick x z)) as [Hin Hle].
    { intros y [<-|Hy]; [assumption|]. apply Hnum. right. now right. }
    assert (Hm : is_nan (fold_left pick xs (pick x z)) = false).
    { destruct Hin as [<-|Hin]; [assumption|]. apply Hnum. right. now right. }
    split.
    + destruct Hin as [E|Hin]; [|right; now right].
      rewrite <- E. destruct (pick_either x z) as [-> | ->];
        [now left | right; now left].
    + intros y [<-|[<-|Hy]].
      * apply le_trans with (pick x z); try assumption.
        -- apply Hle. now left.
        -- now apply pick_le_l.
      * apply le_trans with (pick x z); try assumption.
        -- apply Hle. now left.
        -- now apply pick_le_r.
      * apply Hle. now right.
Qed.

End Extremum.

Lemma present_In x xs : In x (present xs) <-> In x xs /\ is_nan x = false.
Proof.
  unfold present. rewrite filter_In, negb_true_iff. reflexivity.
Qed.

Lemma nanfold_present pick best xs :
  nanfold pick best xs
  = fold_left (fun b x => Some (match b with
                                | None => x
                                | Some m => pick m x
                                end)) (present xs) best.
Proof.
  revert best. induction xs as [|x xs IH]; intros best; simpl;
    [reflexivity|].
  destruct (is_nan x); simpl; apply IH.
Qed.

Lemma fold_left_some pick (xs : list float) m :
  fold_left (fun b x => Some (match b with
                              | None => x
                              | Some m => pick m x
                              end)) xs (Some m)
  = Some (fold_left pick xs m).
Proof.
  revert m. induction xs as [|x xs IH]; intros m; simpl; [reflexivity|].
  apply IH.
Qed.

(** The running extremum starts from the first present value. *)
Lemma nanfold_first pick xs :
  nanfold pick None xs
  = match present xs with
    | [] => None
    | x :: l => Some (fold_left pick l x)
    end.
Proof.
  rewrite nanfold_present.
  destruct (present xs) as [|x l]; [reflexivity|]. apply fold_left_some.
Qed.

Lemma nanfold_extremum le pick xs :
  (forall x, is_nan x = false -> le x x = true) ->
  (forall x y z,
     is_nan x = false -> is_nan y = false -> is_nan z = false ->
     le x y = true -> le y z = true -> le x z = true) ->
  (forall a b, pick a b = a \/ pick a b = b) ->
  (forall a b, is_nan a = false -> is_nan b = false ->
     le (pick a b) a = true) ->
  (forall a b, is_nan a = false -> is_nan b = false ->
     le (pick a b) b = true) ->
  present xs <> [] ->
  exists m, nanfold pick None xs = Some m /\
            In m (present xs) /\
            forall y, In y (present xs) -> le m y = true.
Proof.
  intros Hrefl Htrans Heither Hl Hr Hp. rewrite nanfold_first.
  assert (Hnum : forall y, In y (present xs) -> is_nan y = false)
    by (intros y Hy; now apply present_In in Hy).
  destruct (present xs) as [|x l]; [contradiction|].
  eexists. split; [reflexivity|].
  now apply (fold_left_pick_extremum le pick Hrefl Htrans Heither Hl Hr).
Qed.

Lemma fmin_either a b : fmin a b = a \/ fmin a b = b.
Proof. unfold fmin. destruct (a <? b)%float; auto. Qed.

Lemma fmax_either a b : fmax a b = a \/ fmax a b = b.
Proof. unfold fmax. destruct (b <? a)%float; auto. Qed.

Lemma geb_trans x y z :
  is_nan x = false -> is_nan y = false -> is_nan z = false ->
  (y <=? x)%float = true -> (z <=? y)%float = true -> (z <=? x)%float = true.
Proof. intros Hx Hy Hz Hyx Hzy. now apply leb_trans with y. Qed.

(** [s.min()] and [s.max()] on a column with a present value. *)
Lemma nanmin_least xs : present xs <> [] -> least_of (present xs) (nanmin xs).
Proof.
  intros Hp. unfold nanmin, least_of.
  destruct (nanfold_extremum PrimFloat.leb fmin xs leb_refl leb_trans
              fmin_either) as (m & -> & Hm); [| |assumption|assumption].
  - intros a b Ha Hb. unfold fmin.
    destruct (a <? b)%float eqn:E; [now apply leb_refl | now apply nltb_leb].
  - intros a b Ha Hb. unfold fmin.
    destruct (a <? b)%float eqn:E; [now apply ltb_leb | now apply leb_refl].
Qed.

Lemma nanmax_greatest xs :
  present xs <> [] -> greatest_of (present xs) (nanmax xs).
Proof.
  intros Hp. unfold nanmax, greatest_of.
  destruct (nanfold_extremum (fun a b => PrimFloat.leb b a) fmax xs
              leb_refl geb_trans fmax_either)
    as (m & -> & Hm); [| |assumption|assumption].
  - intros a b Ha Hb. unfold fmax.
    destruct (b <? a)%float eqn:E; [now apply leb_refl | now apply nltb_leb].
  - intros a b Ha Hb. unfold fmax.
    destruct (b <? a)%float eqn:E; [now apply ltb_leb | now apply leb_refl].
Qed.

Lemma nanmin_all_missing xs : present xs = [] -> nanmin xs = nan.
Proof. intros Hp. unfold nanmin. now rewrite nanfold_first, Hp. Qed.

Lemma nanmax_all_missing xs : present xs = [] -> nanmax xs = nan.
Proof. intros Hp. unfold nanmax. now rewrite nanfold_first, Hp. Qed.

(** ** The pairwise sum *)

Lemma present_app xs ys : present (xs ++ ys) = (present xs ++ present ys)%list.
Proof. apply filter_app. Qed.

Lemma present_cons x xs : present (x :: xs) = (present [x] ++ present xs)%list.
Proof. exact (present_app [x] xs). Qed.

Lemma present_eight x0 x1 x2 x3 x4 x5 x6 x7 xs :
  present (x0 :: x1 :: x2 :: x3 :: x4 :: x5 :: x6 :: x7 :: xs)
  = ((present [x0] ++ present [x1] ++ present [x2] ++ present [x3] ++
      present [x4] ++ present [x5] ++ present [x6] ++ present [x7])
     ++ present xs)%list.
Proof.
  rewrite <- !app_assoc.
  do 7 (rewrite present_cons; f_equal). apply present_cons.
Qed.

(** A missing value, replaced by 0.0, adds a zero and no number. *)
Lemma sum_of_fillna x : sum_of (present [x]) (fillna x).
Proof.
  unfold present, fillna. cbn [filter]. destruct (is_nan x); cbn [negb];
    constructor.
Qed.

Lemma sum_of_fold xs l acc :
  sum_of l acc ->
  sum_of (l ++ present xs) (fold_left PrimFloat.add (map fillna xs) acc).
Proof.
  revert l acc. induction xs as [|x xs IH]; intros l acc Hacc;
    cbn [map fold_left].
  - cbn. now rewrite app_nil_r.
  - rewrite present_cons, app_assoc. apply IH.
    apply sum_of_add; [assumption | apply sum_of_fillna].
Qed.

Lemma Permutation_app_pair {A} (a b c d : list A) :
  Permutation ((a ++ b) ++ (c ++ d)) ((a ++ c) ++ (b ++ d)).
Proof.
  rewrite <- !app_assoc. apply Permutation_app_head.
  rewrite !app_assoc. apply Permutation_app_tail. apply Permutation_app_comm.
Qed.

Lemma lanes_of_start x0 x1 x2 x3 x4 x5 x6 x7 :
  lanes_of (present [x0] ++ present [x1] ++ present [x2] ++ present [x3] ++
            present [x4] ++ present [x5] ++ present [x6] ++ present [x7])
    (fillna x0, fillna x1, fillna x2, fillna x3,
     fillna x4, fillna x5, fillna x6, fillna x7).
Proof.
  exists (present [x0]), (present [x1]), (present [x2]), (present [x3]),
         (present [x4]), (present [x5]), (present [x6]), (present [x7]).
  repeat (split; [apply sum_of_fillna|]). reflexivity.
Qed.

Lemma lanes_of_step l r0 r1 r2 r3 r4 r5 r6 r7 x0 x1 x2 x3 x4 x5 x6 x7 :
  lanes_of l (r0, r1, r2, r3, r4, r5, r6, r7) ->
  lanes_of
    (l ++ present [x0] ++ present [x1] ++ present [x2] ++ present [x3] ++
          present [x4] ++ present [x5] ++ present [x6] ++ present [x7])
    (r0 + fillna x0, r1 + fillna x1, r2 + fillna x2, r3 + fillna x3,
     r4 + fillna x4, r5 + fillna x5, r6 + fillna x6, r7 + fillna x7)%float.
Proof.
  intros (l0 & l1 & l2 & l3 & l4 & l5 & l6 & l7
          & H0 & H1 & H2 & H3 & H4 & H5 & H6 & H7 & Hp).
  exists (l0 ++ present [x0])%list, (l1 ++ present [x1])%list,
         (l2 ++ present [x2])%list, (l3 ++ present [x3])%list,
         (l4 ++ present [x4])%list, (l5 ++ present [x5])%list,
         (l6 ++ present [x6])%list, (l7 ++ present [x7])%list.
  repeat (split; [apply sum_of_add; [assumption | apply sum_of_fillna]|]).
  rewrite <- Hp.
  repeat (etransitivity;
          [apply Permutation_app_head | apply Permutation_app_pair]).
  reflexivity.
Qed.

Lemma lanes_of_tree l r0 r1 r2 r3 r4 r5 r6 r7 :
  lanes_of l (r0, r1, r2, r3, r4, r5, r6, r7) ->
  sum_of l (((r0 + r1) + (r2 + r3)) + ((r4 + r5) + (r6 + r7)))%float.
Proof.
  intros (l0 & l1 & l2 & l3 & l4 & l5 & l6 & l7
          & H0 & H1 & H2 & H3 & H4 & H5 & H6 & H7 & Hp).
  apply (sum_of_perm _ _ _ Hp).
  replace (l0 ++ l1 ++ l2 ++ l3 ++ l4 ++ l5 ++ l6 ++ l7)%list
    with (((l0 ++ l1) ++ (l2 ++ l3)) ++ ((l4 ++ l5) ++ (l6 ++ l7)))%list
    by now rewrite <- !app_assoc.
  repeat apply sum_of_add; assumption.
Qed.

(** The loop over the blocks of eight, on a column of [n] values at
    most. *)
Lemma add_lanes_sum_of n : forall xs l r,
  (List.length xs <= n)%nat ->
  lanes_of l r ->
  exists l' rest,
    snd (add_lanes r (map fillna xs)) = map fillna rest /\
    lanes_of l' (fst (add_lanes r (map fillna xs))) /\
    Permutation (l' ++ present rest) (l ++ present xs).
Proof.
  induction n as [|n IH]; intros xs l r Hn Hr.
  - destruct xs; [|simpl in Hn; lia]. exists l, []. cbn. auto.
  - destruct xs as [|x0 [|x1 [|x2 [|x3 [|x4 [|x5 [|x6 [|x7 xs']]]]]]]];
      try (match goal with
           | |- context [add_lanes _ (map fillna ?ys)] => exists l, ys
           end;
           split; [reflexivity|]; split; [assumption | reflexivity]).
    destruct r as [[[[[[[r0 r1] r2] r3] r4] r5] r6] r7].
    cbn [map add_lanes].
    destruct (IH xs' _ _ ltac:(simpl in Hn; lia)
                (lanes_of_step _ _ _ _ _ _ _ _ _ x0 x1 x2 x3 x4 x5 x6 x7 Hr))
      as (l' & rest & Hrest & Hl' & Hp).
    exists l', rest. split; [assumption|]. split; [assumption|].
    rewrite Hp, present_eight, <- !app_assoc. reflexivity.
Qed.

Lemma block_sum_sum_of xs : sum_of (present xs) (block_sum (map fillna xs)).
Proof.
  destruct xs as [|x0 [|x1 [|x2 [|x3 [|x4 [|x5 [|x6 [|x7 xs']]]]]]]];
    try (match goal with
         | |- sum_of (present ?ys) _ =>
             exact (sum_of_fold ys [] _ sum_of_neg_zero)
         end).
  cbn [map block_sum].
  destruct (add_lanes_sum_of (List.length xs') xs' _ _ (le_n _)
              (lanes_of_start x0 x1 x2 x3 x4 x5 x6 x7))
    as (l' & rest & Hrest & Hl' & Hp).
  destruct (add_lanes _ (map fillna xs'))
    as [[[[[[[[r0 r1] r2] r3] r4] r5] r6] r7] a].
  cbn [fst snd] in *. subst a.
  apply lanes_of_tree in Hl'.
  apply (sum_of_perm (l' ++ present rest)).
  - now rewrite Hp, present_eight.
  - now apply sum_of_fold.
Qed.

Lemma pairwise_sum_rec_sum_of depth : forall xs,
  sum_of (present xs) (pairwise_sum_rec depth (map fillna xs)).
Proof.
  induction depth as [|depth IH]; intros xs; cbn [pairwise_sum_rec].
  - apply block_sum_sum_of.
  - destruct (PW_BLOCKSIZE <? List.length (map fillna xs))%nat.
    + rewrite <- (firstn_skipn
                    (List.length (map fillna xs) / 2
                     - (List.length (map fillna xs) / 2) mod 8) xs) at 1.
      rewrite present_app, firstn_map, skipn_map.
      apply sum_of_add; apply IH.
    + apply block_sum_sum_of.
Qed.

(** A sum of no number is a zero. *)
Lemma sum_of_nil s : sum_of [] s -> s = 0%float \/ s = (-0)%float.
Proof.
  intros Hs. remember [] as l eqn:El.
  induction Hs as [| |x|xs ys s t Hs IHs Ht IHt|xs ys s Hp Hs IH].
  - now left.
  - now right.
  - discriminate.
  - apply app_eq_nil in El as [-> ->].
    destruct (IHs eq_refl) as [-> | ->], (IHt eq_refl) as [-> | ->];
      vm_compute; auto.
  - subst ys. apply Permutation_sym, Permutation_nil in Hp. auto.
Qed.

(** What [nanmean] divides: a sum of exactly the present values. *)
Lemma add_reduce_sum_of xs : sum_of (present xs) (add_reduce (map fillna xs)).
Proof.
  unfold add_reduce, pairwise_sum.
  apply (sum_of_add [] (present xs)); [constructor|].
  apply pairwise_sum_rec_sum_of.
Qed.

Lemma pairwise_cut n :
  (PW_BLOCKSIZE < n)%nat -> (0 < n / 2 - (n / 2) mod 8 < n)%nat.
Proof.
  unfold PW_BLOCKSIZE. intros Hn.
  pose proof (Nat.div_mod_eq n 2).
  pose proof (Nat.mod_upper_bound n 2 ltac:(lia)).
  pose proof (Nat.mod_upper_bound (n / 2) 8 ltac:(lia)).
  lia.
Qed.

(** Beyond the length of the array the depth of the recursion does not
    matter. *)
Lemma pairwise_sum_rec_depth d1 : forall d2 a,
  (List.length a <= d1)%nat -> (List.length a <= d2)%nat ->
  pairwise_sum_rec d1 a = pairwise_sum_rec d2 a.
Proof.
  induction d1 as [|d1 IH]; intros d2 a H1 H2.
  - destruct a; [|simpl in H1; lia]. destruct d2; reflexivity.
  - destruct d2 as [|d2].
    + destruct a; [|simpl in H2; lia]. reflexivity.
    + cbn [pairwise_sum_rec].
      destruct (Nat.ltb_spec PW_BLOCKSIZE (List.length a)) as [Hn|Hn];
        [|reflexivity].
      apply pairwise_cut in Hn.
      f_equal; apply IH;
        rewrite ?length_firstn, ?length_skipn; lia.
Qed.

(** The recursion never runs out of depth: [pairwise_sum] satisfies the
    equation that defines numpy's routine. *)
Lemma pairwise_sum_eq a :
  pairwise_sum a
  = if (PW_BLOCKSIZE <? List.length a)%nat then
      let n2 := (List.length a / 2 - (List.length a / 2) mod 8)%nat in
      (pairwise_sum (firstn n2 a) + pairwise_sum (skipn n2 a))%float
    else block_sum a.
Proof.
  unfold pairwise_sum at 1.
  destruct (List.length a) as [|n] eqn:Hlen.
  - reflexivity.
  - cbn [pairwise_sum_rec]. rewrite Hlen.
    destruct (Nat.ltb_spec PW_BLOCKSIZE (S n)) as [Hn|Hn]; [|reflexivity].
    apply pairwise_cut in Hn. cbv zeta. unfold pairwise_sum.
    f_equal; apply pairwise_sum_rec_depth;
      rewrite ?length_firstn, ?length_skipn; lia.
Qed.

Lemma notna_count_present xs :
  notna_count xs = Z.of_nat (List.length (present xs)).
Proof.
  unfold notna_count, present.
  pose proof (filter_length is_nan xs). lia.
Qed.

(** [s.mean()] on a column with a present value, and on one without. *)
Lemma nanmean_mean_of xs :
  present xs <> [] -> mean_of (present xs) (nanmean xs).
Proof.
  intros Hp. unfold nanmean, mean_of. rewrite notna_count_present.
  exists (add_reduce (map fillna xs)). split; [apply add_reduce_sum_of|].
  destruct (present xs) as [|x l]; [contradiction|].
  destruct (Z.ltb_spec 0 (Z.of_nat (List.length (x :: l)))) as [_|Hle];
    [reflexivity|].
  simpl in Hle. lia.
Qed.

Lemma nanmean_all_missing xs : present xs = [] -> nanmean xs = nan.
Proof.
  intros He. unfold nanmean. rewrite notna_count_present, He. reflexivity.
Qed.

(** Eight numbers are added in pairs, not from the left. *)
Example nanmean_of_eight a b c d e f g h :
  Forall (fun x => is_nan x = false) [a; b; c; d; e; f; g; h] ->
  nanmean [a; b; c; d; e; f; g; h]
  = ((0 + (((a + b) + (c + d)) + ((e + f) + (g + h)))) / 8)%float.
Proof.
  intros Hnum.
  repeat match goal with
         | H : Forall _ (_ :: _) |- _ => inversion_clear H
         end.
  unfold nanmean, notna_count. cbn [map filter].
  unfold fillna.
  repeat match goal with
         | H : is_nan ?x = false |- _ => rewrite !H; clear H
         end.
  reflexivity.
Qed.

Example nanmean_of_eight_rounds :
  nanmean [9007199254740992; 1; 1; 1; 1; 1; 1; 1]%float
  = 1125899906842624.75%float /\
  (fold_left PrimFloat.add [9007199254740992; 1; 1; 1; 1; 1; 1; 1] 0 / 8)%float
  = 1125899906842624%float.
Proof. split; reflexivity. Qed.

(** Of two equal numbers the later is kept, by the minimum and by the
    maximum. *)
Example extremes_of_signed_zeros :
  nanmin [0; -0]%float = (-0)%float /\ nanmax [0; -0]%float = (-0)%float /\
  nanmin [-0; 0]%float = 0%float /\ nanmax [-0; 0]%float = 0%float.
Proof. repeat split; reflexivity. Qed.

(* ================================================================== *)
(** * The key statistics (lines 45-53)                                  *)
(* ================================================================== *)

(** A float column read as numbers. *)
Lemma floats_getitem view name :
  column_all is_float name view = true ->
  exists s, getitem view name = Ok s /\ floats s = Ok (measures view name).
Proof.
  intros Hc. destruct (column_all_position _ _ _ Hc) as (j & Hj & Hf).
  unfold getitem, floats, values, measures, field. rewrite Hj.
  eexists. split; [reflexivity|]. rewrite map_map. cbn [snd].
  rewrite <- (map_map (cell_at j)
                (fun c => match c with
                          | Float f => f
                          | Int z => float_of_int z
                          | Str _ => nan
                          end)).
  apply mapM_pure. intros c Hin. apply in_map_iff in Hin as (r & <- & Hr).
  specialize (Hf r Hr). destruct (cell_at j r); try discriminate.
  reflexivity.
Qed.

Lemma scores_ladder view :
  column_all is_float "Life Ladder" view = true ->
  scores view
  = Ok (nanmean (measures view "Life Ladder"),
        nanmin (measures view "Life Ladder"),
        nanmax (measures view "Life Ladder")).
Proof.
  intros Hc. destruct (floats_getitem _ _ Hc) as (s & Hs & Hf).
  unfold scores, mean, min, max. rewrite Hs. cbn [bind]. rewrite Hf.
  reflexivity.
Qed.

Lemma column_all_nonempty p name view :
  column_all p name view = true -> columns view <> [].
Proof.
  unfold column_all. destruct (columns view); [discriminate | discriminate].
Qed.

Lemma empty_rows p name view :
  column_all p name view = true ->
  empty view = match rows view with [] => true | _ => false end.
Proof.
  intros Hc. apply column_all_nonempty in Hc. unfold empty.
  destruct (columns view); [contradiction | reflexivity].
Qed.

Lemma present_all_missing view :
  column_all is_float "Life Ladder" view = true ->
  (forall r, In r (rows view) ->
     missing (field view "Life Ladder" r) = true) ->
  present (measures view "Life Ladder") = [].
Proof.
  intros _ Hm. unfold present, measures. apply filter_none.
  intros x Hx. apply in_map_iff in Hx as (r & <- & Hr).
  specialize (Hm r Hr). unfold missing in Hm.
  destruct (field view "Life Ladder" r); try discriminate.
  now rewrite Hm.
Qed.

(** C2, as the script has it.  On an empty view the three metrics are
    the sentinel ["N/A"]: no NaN is formatted and nothing is raised.  On
    a view that has records, all of them with a missing Life Ladder, the
    three metrics are NaN under the two-decimal format, again without an
    exception: the test of lines 51-53 is on the view, not on the
    column. *)
Theorem key_statistics_unavailable view :
  dataset view = true ->
  (rows view = [] ->
     key_statistics view = Ok (unavailable, unavailable, unavailable)) /\
  (rows view <> [] ->
   (forall r, In r (rows view) ->
      missing (field view "Life Ladder" r) = true) ->
     key_statistics view = Ok (F2 nan, F2 nan, F2 nan)).
Proof.
  intros Hd. apply dataset_columns in Hd as (_ & _ & Hl & _).
  unfold key_statistics, metric_text.
  rewrite (scores_ladder _ Hl), (empty_rows _ _ _ Hl). cbn [bind].
  split.
  - intros ->. reflexivity.
  - intros Hne Hm.
    pose proof (present_all_missing _ Hl Hm) as Hp.
    rewrite nanmean_all_missing, nanmin_all_missing, nanmax_all_missing
      by assumption.
    destruct (rows view); [contradiction | reflexivity].
Qed.

Lemma key_statistics_unavailable_witness :
  dataset all_missing = true /\
  (rows all_missing = [] ->
     key_statistics all_missing = Ok (unavailable, unavailable, unavailable)) /\
  (rows all_missing <> [] ->
   (forall r, In r (rows all_missing) ->
      missing (field all_missing "Life Ladder" r) = true) ->
     key_statistics all_missing = Ok (F2 nan, F2 nan, F2 nan)).
Proof.
  split; [reflexivity|].
  apply (key_statistics_unavailable all_missing). reflexivity.
Defined.

(** C2 as stated fails: [all_missing] is a view that is not empty and
    whose every Life Ladder value is missing, and its three metrics are
    formatted NaN, not the sentinel. *)
Lemma key_statistics_all_missing_is_nan :
  dataset all_missing = true /\
  rows all_missing <> [] /\
  (forall r, In r (rows all_missing) ->
     missing (field all_missing "Life Ladder" r) = true) /\
  key_statistics all_missing = Ok (F2 nan, F2 nan, F2 nan) /\
  key_statistics all_missing <> Ok (unavailable, unavailable, unavailable).
Proof.
  split; [reflexivity|]. split; [discriminate|]. split.
  - intros r [<-|[]]. reflexivity.
  - split; [reflexivity | discriminate].
Qed.

(** C3.  On a view in which at least one Life Ladder value is present,
    the three metrics are numbers under the two-decimal format, computed
    from exactly the present values: the first is a mean of them (a
    floating-point sum of the present values, whatever the order numpy
    adds them in, over their count), the second is a least and the third
    a greatest of them.  In particular a column that reads 5.0, missing,
    7.0 gives mean 6.0, minimum 5.0 and maximum 7.0. *)
Theorem key_statistics_skip_missing view :
  dataset view = true ->
  present (measures view "Life Ladder") <> [] ->
  (exists avg lo hi,
     key_statistics view = Ok (F2 avg, F2 lo, F2 hi) /\
     mean_of (present (measures view "Life Ladder")) avg /\
     least_of (present (measures view "Life Ladder")) lo /\
     greatest_of (present (measures view "Life Ladder")) hi) /\
  (measures view "Life Ladder" = [5.0; nan; 7.0]%float ->
   key_statistics view = Ok (F2 6.0, F2 5.0, F2 7.0)).
Proof.
  intros Hd Hp. apply dataset_columns in Hd as (_ & _ & Hl & _).
  unfold key_statistics, metric_text.
  rewrite (scores_ladder _ Hl), (empty_rows _ _ _ Hl). cbn [bind].
  assert (Hrows : rows view <> []).
  { intros E. apply Hp. unfold measures. now rewrite E. }
  destruct (rows view) as [|r rs]; [contradiction|]. cbn [negb].
  split.
  - do 3 eexists. split; [reflexivity|].
    split; [now apply nanmean_mean_of|].
    split; [now apply nanmin_least | now apply nanmax_greatest].
  - intros ->. reflexivity.
Qed.

(** C3 on the view [five_missing_seven], whose Life Ladder column reads
    5.0, missing, 7.0. *)
Lemma key_statistics_skip_missing_witness :
  dataset five_missing_seven = true /\
  present (measures five_missing_seven "Life Ladder") <> [] /\
  (exists avg lo hi,
     key_statistics five_missing_seven = Ok (F2 avg, F2 lo, F2 hi) /\
     mean_of (present (measures five_missing_seven "Life Ladder")) avg /\
     least_of (present (measures five_missing_seven "Life Ladder")) lo /\
     greatest_of (present (measures five_missing_seven "Life Ladder")) hi) /\
  (measures five_missing_seven "Life Ladder" = [5.0; nan; 7.0]%float ->
   key_statistics five_missing_seven = Ok (F2 6.0, F2 5.0, F2 7.0)).
Proof.
  assert (Hp : present (measures five_missing_seven "Life Ladder") <> [])
    by (vm_compute; discriminate).
  split; [reflexivity|]. split; [exact Hp|].
  exact (key_statistics_skip_missing five_missing_seven eq_refl Hp).
Defined.

(** The instance of C3 as the script computes it. *)
Example five_missing_seven_statistics :
  measures five_missing_seven "Life Ladder" = [5.0; nan; 7.0]%float /\
  key_statistics five_missing_seven = Ok (F2 6.0, F2 5.0, F2 7.0).
Proof. split; reflexivity. Qed.

(** The scenario: Mongolia between 2010 and 2023 gives its two rows in
    the order of the dataset, with mean 4.75, minimum 4.5 and maximum
    5.0; the unknown country Atlantis gives an empty view and three
    sentinels. *)
Example scenario_mongolia :
  filtered_data scenario ["Mongolia"] (2010, 2023)
  = Ok (mkFrame (columns scenario)
          [ mkRow 0 [Str "Mongolia"; Int 2015; Float 4.5; Float 9.25;
                     Float 0.75; Float 60];
            mkRow 1 [Str "Mongolia"; Int 2016; Float 5.0; NaN; Float 0.875;
                     Float 61] ]) /\
  (view <- filtered_data scenario ["Mongolia"] (2010, 2023) ;;
   key_statistics view) = Ok (F2 4.75, F2 4.5, F2 5.0).
Proof. split; reflexivity. Qed.

Example scenario_atlantis :
  filtered_data scenario ["Atlantis"] (2000, 2023)
  = Ok (mkFrame (columns scenario) []) /\
  (view <- filtered_data scenario ["Atlantis"] (2000, 2023) ;;
   key_statistics view) = Ok (unavailable, unavailable, unavailable).
Proof. split; reflexivity. Qed.

(* ================================================================== *)
(** * The loader (lines 7-11)                                           *)
(* ================================================================== *)




Section Loader.
Context `{Builtins}.






End Loader.


(** The loader on a uint64 year column: the year 2^64 - 1 wraps to
    -1.  On a year beyond 64 bits, held as an integer or as the text
    [read_csv] keeps of it: [OverflowError]. *)
Example load_data_uint64_year :
  @load_data plain_builtins (Ok uint64_year)
  = Ok (mkFrame ["Country name"; "year"; "Life Ladder"]
          [ mkRow 0 [Str "Mongolia"; Int 2015; Float 4.5];
            mkRow 1 [Str "Finland"; Int (-1); Float 7.5] ]).
Proof. reflexivity. Qed.

Example load_data_huge_year :
  @load_data plain_builtins (Ok huge_year) = Raise OverflowError /\
  @load_data plain_builtins (Ok huge_text_year) = Raise OverflowError.
Proof. split; reflexivity. Qed.

(** The loader on years read as floats: each is truncated. *)
Example load_data_float_year :
  @load_data plain_builtins (Ok float_year)
  = Ok (mkFrame ["Country name"; "year"; "Life Ladder"]
          [ mkRow 0 [Str "Mongolia"; Int 2015; Float 4.5];
            mkRow 1 [Str "Finland"; Int 2016; Float 7.5] ]).
Proof. reflexivity. Qed.

(* ================================================================== *)
(** * The statements and the store                                      *)
(* ================================================================== *)

Section Respects.
Context {R : Env -> Env -> Prop}.
Hypothesis R_refl : forall env, R env env.
Hypothesis R_trans : forall a b c, R a b -> R b c -> R a c.

Lemma respects_ret {A} (a : A) : respects R (ret a).
Proof. intros env. apply R_refl. Qed.

Lemma respects_eval {A} (r : result A) : respects R (eval r).
Proof. intros env. apply R_refl. Qed.

Lemma respects_read_data : respects R read_data.
Proof. intros env. apply R_refl. Qed.

Lemma respects_read_filtered_data : respects R read_filtered_data.
Proof. intros env. apply R_refl. Qed.

Lemma respects_seq {A B} (c : Script A) (k : A -> Script B) :
  respects R c -> (forall a, respects R (k a)) -> respects R (seq c k).
Proof.
  intros Hc Hk env. unfold seq. specialize (Hc env).
  destruct (c env) as [env1 [a|e]]; cbn [fst] in *.
  - apply R_trans with env1; [assumption | apply Hk].
  - assumption.
Qed.

End Respects.

Lemma same_data_refl env : same_data env env.
Proof. reflexivity. Qed.

Lemma same_data_trans a b c : same_data a b -> same_data b c -> same_data a c.
Proof. unfold same_data. congruence. Qed.

Lemma same_view_refl env : same_view env env.
Proof. reflexivity. Qed.

Lemma same_view_trans a b c : same_view a b -> same_view b c -> same_view a c.
Proof. unfold same_view. congruence. Qed.

Lemma grows_in_refl P env : grows_in P env env.
Proof. exists []. split; [now rewrite app_nil_r | constructor]. Qed.

Lemma grows_in_trans P a b c :
  grows_in P a b -> grows_in P b c -> grows_in P a c.
Proof.
  intros (x & Hx & Px) (y & Hy & Py). exists (x ++ y)%list. split.
  - now rewrite Hy, Hx, app_assoc.
  - apply Forall_app. now split.
Qed.

Lemma same_data_render c e : respects same_data (render c e).
Proof. intros env. reflexivity. Qed.

Lemma same_view_render c e : respects same_view (render c e).
Proof. intros env. reflexivity. Qed.

Lemma grows_in_render (P : container -> Prop) c e :
  P c -> respects (grows_in P) (render c e).
Proof.
  intros Hc env. exists [(c, e)]. split; [reflexivity|].
  constructor; [exact Hc | constructor].
Qed.

Lemma same_data_bind_filtered_data fd :
  respects same_data (bind_filtered_data fd).
Proof. intros env. reflexivity. Qed.

Lemma grows_in_bind_filtered_data P fd :
  respects (grows_in P) (bind_filtered_data fd).
Proof.
  intros env. exists []. cbn. split; [now rewrite app_nil_r | constructor].
Qed.

Lemma same_data_setitem_filtered_data name vals :
  respects same_data (setitem_filtered_data name vals).
Proof.
  intros env. unfold setitem_filtered_data.
  destruct (var_filtered_data env); reflexivity.
Qed.

Lemma grows_in_setitem_filtered_data P name vals :
  respects (grows_in P) (setitem_filtered_data name vals).
Proof.
  intros env. unfold setitem_filtered_data.
  destruct (var_filtered_data env); exists []; cbn;
    (split; [now rewrite app_nil_r | constructor]).
Qed.

(** A goal [respects R s], by the shape of [s]: [base] for the
    statements it knows, the lemmas above for sequencing, reads and
    evaluations. *)
Ltac respects_with refl trans base :=
  repeat first
    [ base
    | apply (respects_seq trans)
    | apply (respects_ret refl)
    | apply (respects_eval refl)
    | apply (respects_read_data refl)
    | apply (respects_read_filtered_data refl)
    | match goal with
      | |- respects _ (if ?b then _ else _) => destruct b
      | |- respects _ (match ?p with (_, _) => _ end) => destruct p
      | |- forall _, _ => intro
      end ].

Section Blocks.
Context `{Builtins}.
Variable inputs : Inputs.

(** No statement of the script changes the dataset. *)
Lemma body_same_data : respects same_data (body inputs).
Proof.
  unfold body, filter_data, key_metrics, insights_tab, trends_tab,
    global_map_tab, detailed_metrics_tab, comparisons_tab, download.
  respects_with same_data_refl same_data_trans
    ltac:(first [ apply same_data_render
                | apply same_data_bind_filtered_data
                | apply same_data_setitem_filtered_data ]).
Qed.

End Blocks.

(* ================================================================== *)
(** * The Insights tab (lines 59-79)                                    *)
(* ================================================================== *)

Lemma column_all_filter p name data (f : Row -> bool) :
  column_all p name data = true ->
  column_all p name (mkFrame (columns data) (filter f (rows data))) = true.
Proof.
  unfold column_all. cbn [columns rows].
  destruct (position name (columns data)); [|discriminate].
  rewrite !forallb_forall. intros Hall r Hr. apply Hall.
  now apply filter_In in Hr as [Hr _].
Qed.

Lemma shown_app inside env r (added : list (container * element)) env' r' :
  page env' = (page env ++ added)%list ->
  shown inside (env', r')
  = (shown inside (env, r)
     ++ map snd (filter (fun p => container_eqb (fst p) inside) added))%list.
Proof.
  intros Hp. unfold shown. cbn [fst]. now rewrite Hp, filter_app, map_app.
Qed.

Lemma filter_outside inside (added : list (container * element)) :
  Forall (fun p => fst p <> inside) added ->
  filter (fun p => container_eqb (fst p) inside) added = [].
Proof.
  intros Hall. apply filter_none. intros [c e] Hin.
  rewrite Forall_forall in Hall. specialize (Hall _ Hin). cbn [fst] in *.
  destruct c, inside; try reflexivity; contradiction.
Qed.

(** Growth of the page outside a container leaves what the container
    shows. *)
Lemma shown_grows_outside inside env env' r r' :
  grows_in (fun c => c <> inside) env env' ->
  shown inside (env', r') = shown inside (env, r).
Proof.
  intros (added & Hp & Hout).
  rewrite (shown_app inside env r added env' r' Hp).
  now rewrite (filter_outside _ _ Hout), app_nil_r.
Qed.

Section Insights.
Context `{Builtins}.
Variable inputs : Inputs.

(** The tabs after Insights and the download render elsewhere. *)
Lemma after_insights_outside :
  respects (grows_in (fun c => c <> Insights))
    (trends_tab inputs >> global_map_tab inputs >>
     detailed_metrics_tab inputs >> comparisons_tab inputs >> download).
Proof.
  unfold trends_tab, global_map_tab, detailed_metrics_tab, comparisons_tab,
    download.
  respects_with (grows_in_refl (fun c => c <> Insights))
                (grows_in_trans (fun c => c <> Insights))
    ltac:(first [ apply grows_in_render; discriminate
                | apply grows_in_setitem_filtered_data ]).
Qed.

(** The Insights tab reads the dataset and the selection, nothing else:
    in any store it adds to the page what it renders from a store that
    holds the dataset alone. *)
Lemma insights_tab_reads_data env :
  page (fst (insights_tab inputs env))
  = (page env
     ++ page (fst (insights_tab inputs (mkEnv (var_data env) None []))))%list.
Proof.
  unfold insights_tab, seq, read_data, eval, render.
  destruct (List.length (selected_countries inputs) =? 1)%nat;
    cbn [fst var_data page var_filtered_data app].
  - destruct (country_data (var_data env) (hd "" (selected_countries inputs)))
      as [cd|e]; cbn [fst var_data page var_filtered_data app];
      [|now rewrite app_nil_r].
    destruct (negb (empty cd)); cbn [fst var_data page var_filtered_data app];
      [|now rewrite <- app_assoc].
    destruct (key_indicators cd);
      cbn [fst var_data page var_filtered_data app];
      now rewrite <- ?app_assoc.
  - now rewrite <- app_assoc.
Qed.

(** On a dataset, lines 38-53 complete: the view is bound and the three
    metrics are rendered, all on the main page. *)
Lemma filter_and_metrics_complete data :
  dataset data = true ->
  exists view metrics,
    filtered_data data (selected_countries inputs) (year_range inputs)
    = Ok view /\
    Forall (fun p => fst p = Main) metrics /\
    forall (rest : Script unit),
      (filter_data inputs >> key_metrics >> rest) (mkEnv data None [])
      = rest (mkEnv data (Some view) metrics).
Proof.
  intros Hd. destruct (year_range inputs) as [year_min year_max] eqn:Hy.
  pose proof (dataset_filtered_data data (selected_countries inputs)
                year_min year_max Hd) as Hf.
  apply dataset_columns in Hd as (_ & _ & Hl & _).
  pose proof (column_all_filter _ _ _
                (keeps data (selected_countries inputs) year_min year_max) Hl)
    as Hv.
  eexists. eexists. split; [exact Hf|]. split.
  2:{ intros rest.
      unfold filter_data, key_metrics, seq, read_data, eval,
        bind_filtered_data, read_filtered_data, render.
      cbn [var_data]. rewrite Hy, Hf.
      cbn [var_data var_filtered_data page app].
      unfold key_statistics. rewrite (scores_ladder _ Hv). cbn [bind].
      cbn [var_data var_filtered_data page app]. reflexivity. }
  repeat constructor.
Qed.

End Insights.

(** C10.  On a dataset, what the Insights tab shows does not depend on
    the year range: two runs that differ in the range only show the same
    Insights, namely what the tab renders from the full dataset and the
    selection.  With one country [c] selected that is the heading and,
    unless no row of the dataset has the country, the indicators
    computed over all rows of the dataset whose country is [c]. *)
Theorem insights_ignore_year_range `{Builtins} data inputs years1 years2 :
  dataset data = true ->
  shown Insights (run data (with_years inputs years1))
  = shown Insights (run data (with_years inputs years2)) /\
  shown Insights (run data (with_years inputs years1))
  = shown Insights (insights_tab inputs (mkEnv data None [])) /\
  forall c, selected_countries inputs = [c] ->
    exists cd,
      country_data data c = Ok cd /\
      rows cd = filter (fun r => match field data "Country name" r with
                                 | Str x => String.eqb x c
                                 | _ => false
                                 end) (rows data) /\
      shown Insights (run data (with_years inputs years1))
      = Write ("### Insights for " ++ c ++ ":")
        :: (if empty cd
            then [Write "No data available for this country."]
            else match key_indicators cd with
                 | Ok k => [Markdown k]
                 | Raise _ => []
                 end).
Proof.
  intros Hd.
  assert (Hrun : forall years,
            shown Insights (run data (with_years inputs years))
            = shown Insights (insights_tab inputs (mkEnv data None []))).
  { intros years. unfold run, body.
    destruct (filter_and_metrics_complete (with_years inputs years) data Hd)
      as (view & metrics & _ & Hmain & Hrest).
    rewrite Hrest. unfold seq at 1.
    change (insights_tab (with_years inputs years))
      with (insights_tab inputs).
    pose proof (insights_tab_reads_data inputs
                  (mkEnv data (Some view) metrics)) as Hpage.
    cbn [var_data page] in Hpage.
    destruct (insights_tab inputs (mkEnv data (Some view) metrics))
      as [env3 [[]|e]] eqn:Htab; cbn [fst] in Hpage.
    - pose proof (after_insights_outside (with_years inputs years) env3)
        as Hout.
      destruct ((trends_tab (with_years inputs years) >>
                 global_map_tab (with_years inputs years) >>
                 detailed_metrics_tab (with_years inputs years) >>
                 comparisons_tab (with_years inputs years) >>
                 download) env3)
        as [env4 r4]; cbn [fst] in Hout.
      rewrite (shown_grows_outside Insights env3 env4 (Ok tt) r4 Hout).
      rewrite (shown_app Insights (mkEnv data (Some view) []) (Ok tt)
                 (metrics ++ page (fst (insights_tab inputs
                                          (mkEnv data None []))))
                 env3 (Ok tt)) by exact Hpage.
      rewrite filter_app, (filter_outside Insights metrics).
      + unfold shown. reflexivity.
      + eapply Forall_impl; [|exact Hmain].
        intros p ->. discriminate.
    - rewrite (shown_app Insights (mkEnv data (Some view) []) (Ok tt)
                 (metrics ++ page (fst (insights_tab inputs
                                          (mkEnv data None []))))
                 env3 (Raise e)) by exact Hpage.
      rewrite filter_app, (filter_outside Insights metrics).
      + unfold shown. reflexivity.
      + eapply Forall_impl; [|exact Hmain].
        intros p ->. discriminate. }
  split; [now rewrite !Hrun|]. split; [apply Hrun|].
  intros c Hsel. rewrite Hrun.
  apply dataset_columns in Hd as (Hc & _).
  destruct (column_all_position _ _ _ Hc) as (jc & Hjc & _).
  unfold country_data, getitem, getitem_mask, eq_str, values.
  rewrite Hjc. cbn [bind columns rows]. rewrite !map_map. cbn [snd].
  eexists. split; [reflexivity|]. cbn [rows]. split.
  - rewrite select_map. apply filter_ext. intros r.
    unfold field. now rewrite Hjc.
  - unfold insights_tab, shown, seq, read_data, eval, render.
    rewrite Hsel. cbn [List.length Nat.eqb hd var_data].
    unfold country_data, getitem, getitem_mask, eq_str, values.
    rewrite Hjc. cbn [bind columns rows]. rewrite !map_map. cbn [snd].
    cbn [fst page app var_data var_filtered_data].
    match goal with
    | |- context [empty ?cd] => destruct (empty cd)
    end; cbn [negb fst page app var_data var_filtered_data].
    + reflexivity.
    + match goal with
      | |- context [key_indicators ?cd] => destruct (key_indicators cd)
      end; reflexivity.
Qed.

Lemma insights_ignore_year_range_witness :
  dataset scenario = true /\
  shown Insights
    (@run plain_builtins scenario
       (with_years (mkInputs ["Mongolia"] (2010, 2023) "Life Ladder"
                      (0.0, 10.0)%float) (2010, 2023)))
  = shown Insights
      (@run plain_builtins scenario
         (with_years (mkInputs ["Mongolia"] (2010, 2023) "Life Ladder"
                        (0.0, 10.0)%float) (2016, 2016))).
Proof.
  split; [reflexivity|].
  apply (@insights_ignore_year_range plain_builtins scenario
           (mkInputs ["Mongolia"] (2010, 2023) "Life Ladder" (0.0, 10.0)%float)
           (2010, 2023) (2016, 2016)).
  reflexivity.
Defined.

(** The Insights of the scenario with Mongolia selected: both of its
    years count, whatever the range. *)
Example insights_of_mongolia :
  shown Insights
    (@run plain_builtins scenario
       (mkInputs ["Mongolia"] (2016, 2016) "Life Ladder" (0.0, 10.0)%float))
  = [ Write "### Insights for Mongolia:";
      Markdown (mkIndicators 4.75 5.0 (Int 2016) 4.5 (Int 2015)
                  0.8125 60.5 9.25) ].
Proof. reflexivity. Qed.

(* ================================================================== *)
(** * The Comparisons tab and the download (lines 127-152)              *)
(* ================================================================== *)

Lemma seq_completes {A B} (c : Script A) (k : A -> Script B) env env' b :
  seq c k env = (env', Ok b) ->
  exists a env1, c env = (env1, Ok a) /\ k a env1 = (env', Ok b).
Proof.
  unfold seq. destruct (c env) as [env1 [a|e]]; [|discriminate].
  intros Hk. now exists a, env1.
Qed.

Lemma respects_same_view {A} (s : Script A) env env' r :
  respects same_view s -> s env = (env', r) ->
  var_filtered_data env' = var_filtered_data env.
Proof. intros Hs Hr. specialize (Hs env). now rewrite Hr in Hs. Qed.

Ltac same_view_blocks :=
  respects_with same_view_refl same_view_trans ltac:(apply same_view_render).

(** The statements between the filter and the Comparisons tab only read
    the view. *)
Lemma key_metrics_same_view : respects same_view key_metrics.
Proof. unfold key_metrics. same_view_blocks. Qed.

Lemma insights_tab_same_view inputs : respects same_view (insights_tab inputs).
Proof. unfold insights_tab. same_view_blocks. Qed.

Lemma trends_tab_same_view inputs : respects same_view (trends_tab inputs).
Proof. unfold trends_tab. same_view_blocks. Qed.

Lemma global_map_tab_same_view inputs :
  respects same_view (global_map_tab inputs).
Proof. unfold global_map_tab. same_view_blocks. Qed.

Lemma detailed_metrics_tab_same_view inputs :
  respects same_view (detailed_metrics_tab inputs).
Proof. unfold detailed_metrics_tab. same_view_blocks. Qed.

Lemma download_same_view : respects same_view download.
Proof. unfold download. same_view_blocks. Qed.

(** With at most one country selected the Comparisons tab reads
    nothing and writes a hint. *)
Lemma comparisons_tab_same_view `{Builtins} inputs :
  (List.length (selected_countries inputs) <= 1)%nat ->
  respects same_view (comparisons_tab inputs).
Proof.
  intros Hle. unfold comparisons_tab.
  replace (1 <? List.length (selected_countries inputs))%nat with false
    by (symmetry; apply Nat.ltb_ge; exact Hle).
  same_view_blocks.
Qed.

(** With more than one selected, a Comparisons tab that completes has
    assigned the column [Country (Year)] into the view. *)
Lemma comparisons_tab_assigns `{Builtins} inputs env env' view :
  (1 < List.length (selected_countries inputs))%nat ->
  var_filtered_data env = Some view ->
  comparisons_tab inputs env = (env', Ok tt) ->
  exists labels,
    country_year view = Ok labels /\
    var_filtered_data env' = Some (setitem view "Country (Year)" labels).
Proof.
  intros Hlt Hview. unfold comparisons_tab.
  replace (1 <? List.length (selected_countries inputs))%nat with true
    by (symmetry; apply Nat.ltb_lt; exact Hlt).
  unfold seq, render, read_filtered_data, eval, setitem_filtered_data.
  cbn [var_filtered_data var_data page]. rewrite Hview.
  destruct (country_year view) as [labels|e]; [|discriminate].
  cbn [var_filtered_data var_data page].
  match goal with
  | |- context [uses_columns ?fd ?cols] => destruct (uses_columns fd cols)
  end; [|discriminate].
  intros [= <-]. now exists labels.
Qed.

Lemma download_exports env env' :
  download env = (env', Ok tt) ->
  exists fd, var_filtered_data env = Some fd /\
             exported (env', Ok tt) = Some (to_csv fd).
Proof.
  unfold download, seq, read_filtered_data, render, exported.
  destruct (var_filtered_data env) as [fd|]; [|discriminate].
  intros [= <-]. exists fd. split; [reflexivity|].
  cbn [fst page]. now rewrite rev_app_distr.
Qed.

Lemma columns_setitem view name vals :
  columns (setitem view name vals)
  = match position name (columns view) with
    | Some _ => columns view
    | None => (columns view ++ [name])%list
    end.
Proof. unfold setitem. now destruct (position name (columns view)). Qed.

(** The columns of the file a completed run offers for download: those
    of the dataset when at most one country is selected; with more than
    one selected, those of the dataset and the column [Country (Year)]
    the Comparisons tab has assigned. *)
Lemma exported_columns `{Builtins} data inputs :
  dataset data = true ->
  snd (run data inputs) = Ok tt ->
  exists csv,
    exported (run data inputs) = Some csv /\
    header csv
    = if (1 <? List.length (selected_countries inputs))%nat
      then match position "Country (Year)" (columns data) with
           | Some _ => columns data
           | None => (columns data ++ ["Country (Year)"])%list
           end
      else columns data.
Proof.
  intros Hd Hok. unfold run in *.
  destruct (body inputs (mkEnv data None [])) as [final r] eqn:Hrun.
  cbn [snd] in Hok. subst r. unfold body in Hrun.
  destruct (filter_and_metrics_complete inputs data Hd)
    as (view & metrics & Hview & _ & Hrest).
  rewrite Hrest in Hrun.
  assert (Hcols : columns view = columns data).
  { destruct (year_range inputs) as [lo hi].
    rewrite (dataset_filtered_data _ _ _ _ Hd) in Hview.
    now injection Hview as <-. }
  apply seq_completes in Hrun as ([] & e3 & H3 & Hrun).
  apply seq_completes in Hrun as ([] & e4 & H4 & Hrun).
  apply seq_completes in Hrun as ([] & e5 & H5 & Hrun).
  apply seq_completes in Hrun as ([] & e6 & H6 & Hrun).
  apply seq_completes in Hrun as ([] & e7 & H7 & Hrun).
  apply (respects_same_view _ _ _ _ (insights_tab_same_view inputs)) in H3.
  apply (respects_same_view _ _ _ _ (trends_tab_same_view inputs)) in H4.
  apply (respects_same_view _ _ _ _ (global_map_tab_same_view inputs)) in H5.
  apply (respects_same_view _ _ _ _ (detailed_metrics_tab_same_view inputs))
    in H6.
  cbn [var_filtered_data] in H3.
  assert (Hv6 : var_filtered_data e6 = Some view) by congruence.
  apply download_exports in Hrun as (fd & Hfd & Hcsv).
  exists (to_csv fd). split; [exact Hcsv|]. cbn [to_csv header].
  destruct (1 <? List.length (selected_countries inputs))%nat eqn:Hn.
  - apply Nat.ltb_lt in Hn.
    destruct (comparisons_tab_assigns inputs e6 e7 view Hn Hv6 H7)
      as (labels & _ & Hv7).
    rewrite Hv7 in Hfd. injection Hfd as <-.
    now rewrite columns_setitem, Hcols.
  - apply Nat.ltb_ge in Hn.
    apply (respects_same_view _ _ _ _ (comparisons_tab_same_view inputs Hn))
      in H7.
    assert (fd = view) by congruence. now subst fd.
Qed.

(** C5 fails on the script.  With Mongolia and Finland selected on the
    dataset [two_countries] the run completes, and the exported file has
    the columns of the dataset followed by [Country (Year)]: line 130
    has assigned that column into the frame that line 145 serializes. *)
Theorem export_has_added_column :
  dataset two_countries = true /\
  snd (@run plain_builtins two_countries compare_two) = Ok tt /\
  exists csv,
    exported (@run plain_builtins two_countries compare_two) = Some csv /\
    header csv = (columns two_countries ++ ["Country (Year)"])%list /\
    header csv <> columns two_countries /\
    records csv
    = [ [Str "Finland"; Int 2010; Float 7.5; Float 10.5; Float 0.9375;
         Float 70; Str "Finland (2010)"];
        [Str "Finland"; Int 2023; Float 7.75; Float 10.75; Float 0.9375;
         Float 71; Str "Finland (2023)"];
        [Str "Mongolia"; Int 2010; Float 4.5; Float 9.0; Float 0.875;
         Float 59; Str "Mongolia (2010)"];
        [Str "Mongolia"; Int 2023; Float 5.5; Float 9.5; Float 0.9375;
         Float 61; Str "Mongolia (2023)"] ].
Proof.
  split; [reflexivity|]. split; [reflexivity|].
  eexists. split; [reflexivity|].
  split; [reflexivity|]. split; [discriminate | reflexivity].
Qed.

(** With Mongolia alone selected the same download has the columns of
    the dataset and nothing else. *)
Example export_of_one_country :
  exists csv,
    exported (@run plain_builtins two_countries
                (mkInputs ["Mongolia"] (2010, 2023) "Life Ladder"
                   (0.0, 10.0)%float)) = Some csv /\
    header csv = columns two_countries.
Proof. eexists. split; reflexivity. Qed.

(** C9 fails on the script.  On the same run the dataset is left as it
    was, but the view is not only read: after the Comparisons tab the
    frame bound to [filtered_data] is no longer the frame the filter
    returned, it carries the column assigned at line 130. *)
Theorem comparisons_tab_mutates_view :
  exists view,
    filtered_data two_countries (selected_countries compare_two)
      (year_range compare_two) = Ok view /\
    var_data (fst (@run plain_builtins two_countries compare_two))
    = two_countries /\
    var_filtered_data (fst (@run plain_builtins two_countries compare_two))
    = Some (setitem view "Country (Year)"
              [Str "Finland (2010)"; Str "Finland (2023)";
               Str "Mongolia (2010)"; Str "Mongolia (2023)"]) /\
    var_filtered_data (fst (@run plain_builtins two_countries compare_two))
    <> Some view.
Proof.
  eexists. split; [reflexivity|]. split; [reflexivity|].
  split; [reflexivity|].
  intros Heq.
  apply (f_equal (fun o => match o with
                           | Some d => List.length (columns d)
                           | None => 0%nat
                           end)) in Heq.
  vm_compute in Heq. discriminate Heq.
Qed.

(** What holds of C9 on every run: the dataset is never changed, the
    filter is a function of the dataset and the criteria, and with at
    most one country selected no statement after the filter changes the
    view. *)
Lemma filter_data_again inputs env :
  var_filtered_data (fst ((filter_data inputs >> filter_data inputs) env))
  = var_filtered_data (fst (filter_data inputs env)).
Proof.
  unfold filter_data, seq, read_data, eval, bind_filtered_data.
  destruct (filtered_data (var_data env) (selected_countries inputs)
              (year_range inputs)) as [view|e] eqn:Hv;
    cbn [fst var_data var_filtered_data]; [|reflexivity].
  now rewrite Hv.
Qed.

Lemma run_same_data `{Builtins} data inputs :
  var_data (fst (run data inputs)) = data.
Proof. exact (body_same_data inputs (mkEnv data None [])). Qed.

Lemma run_same_view `{Builtins} data inputs view :
  dataset data = true ->
  (List.length (selected_countries inputs) <= 1)%nat ->
  filtered_data data (selected_countries inputs) (year_range inputs)
  = Ok view ->
  var_filtered_data (fst (run data inputs)) = Some view.
Proof.
  intros Hd Hle Hview. unfold run, body.
  destruct (filter_and_metrics_complete inputs data Hd)
    as (view' & metrics & Hview' & _ & Hrest).
  rewrite Hrest. assert (view' = view) by congruence. subst view'.
  assert (Hrest_view : respects same_view
            (insights_tab inputs >> trends_tab inputs >>
             global_map_tab inputs >> detailed_metrics_tab inputs >>
             comparisons_tab inputs >> download)).
  { respects_with same_view_refl same_view_trans
      ltac:(first [ apply insights_tab_same_view
                  | apply trends_tab_same_view
                  | apply global_map_tab_same_view
                  | apply detailed_metrics_tab_same_view
                  | apply (comparisons_tab_same_view inputs Hle)
                  | apply download_same_view ]). }
  exact (Hrest_view (mkEnv data (Some view) metrics)).
Qed.

(* ================================================================== *)
(** * Further properties of the filter and the metrics                  *)
(* ================================================================== *)

Lemma dataset_filter data (f : Row -> bool) :
  dataset data = true ->
  dataset (mkFrame (columns data) (filter f (rows data))) = true.
Proof.
  intros Hd.
  apply dataset_columns in Hd as (H1 & H2 & H3 & H4 & H5 & H6).
  unfold dataset.
  now rewrite !column_all_filter by assumption.
Qed.

Lemma filter_filter_impl {A} (f g : A -> bool) (l : list A) :
  (forall x, In x l -> g x = true -> f x = true) ->
  filter g (filter f l) = filter g l.
Proof.
  induction l as [|x l IH]; simpl; intros Hgf; [reflexivity|].
  assert (Hl : forall y, In y l -> g y = true -> f y = true)
    by (intros y Hy; apply Hgf; now right).
  destruct (f x) eqn:Hf; simpl.
  - destruct (g x); now rewrite IH.
  - destruct (g x) eqn:Hg; [|now apply IH].
    rewrite (Hgf x (or_introl eq_refl) Hg) in Hf. discriminate.
Qed.

Lemma keeps_narrower df countries countries' lo hi lo' hi' r :
  (forall c, In c countries' -> In c countries) ->
  lo <= lo' -> hi' <= hi ->
  keeps df countries' lo' hi' r = true ->
  keeps df countries lo hi r = true.
Proof.
  intros Hsub Hlo Hhi Hk.
  apply keeps_matches in Hk as (c & y & Hc & Hin & Hy & Hr).
  apply keeps_matches. exists c, y.
  repeat split; try assumption; try lia. now apply Hsub.
Qed.

(** X1.  A view is again a dataset, filtering it by the criteria that
    made it gives it back, and filtering it by narrower criteria (fewer
    countries, a year range inside the first) gives what the narrower
    criteria give on the whole dataset. *)
Theorem filter_of_view data countries year_min year_max
    countries' year_min' year_max' :
  dataset data = true ->
  (forall c, In c countries' -> In c countries) ->
  year_min <= year_min' -> year_max' <= year_max ->
  exists view,
    filtered_data data countries (year_min, year_max) = Ok view /\
    dataset view = true /\
    filtered_data view countries (year_min, year_max) = Ok view /\
    filtered_data view countries' (year_min', year_max')
    = filtered_data data countries' (year_min', year_max').
Proof.
  intros Hd Hsub Hlo Hhi.
  pose proof (dataset_filter data (keeps data countries year_min year_max) Hd)
    as Hv.
  eexists. split; [now apply dataset_filtered_data|].
  split; [exact Hv|].
  rewrite !(dataset_filtered_data _ _ _ _ Hv),
          (dataset_filtered_data _ _ _ _ Hd).
  cbn [columns rows]. split; f_equal; f_equal.
  - apply (filter_filter_impl (keeps data countries year_min year_max)
             (keeps data countries year_min year_max)).
    auto.
  - apply (filter_filter_impl (keeps data countries year_min year_max)
             (keeps data countries' year_min' year_max')).
    intros r _. now apply keeps_narrower.
Qed.

Lemma filter_of_view_witness :
  dataset scenario = true /\
  exists view,
    filtered_data scenario ["Mongolia"; "Finland"] (2010, 2023) = Ok view /\
    dataset view = true /\
    filtered_data view ["Mongolia"; "Finland"] (2010, 2023) = Ok view /\
    filtered_data view ["Mongolia"] (2016, 2020)
    = filtered_data scenario ["Mongolia"] (2016, 2020).
Proof.
  split; [reflexivity|].
  apply (filter_of_view scenario ["Mongolia"; "Finland"] 2010 2023
           ["Mongolia"] 2016 2020).
  - reflexivity.
  - intros c [<-|[]]. now left.
  - lia.
  - lia.
Defined.

(** X2.  The filter is monotone in the selection: adding countries to
    the selection keeps every record that was in the view, in place. *)
Theorem filter_monotone_selection data countries countries'
    year_min year_max :
  dataset data = true ->
  (forall c, In c countries -> In c countries') ->
  exists fewer more,
    filtered_data data countries (year_min, year_max) = Ok fewer /\
    filtered_data data countries' (year_min, year_max) = Ok more /\
    (forall r, In r (rows fewer) -> In r (rows more)) /\
    Subsequence (rows fewer) (rows more).
Proof.
  intros Hd Hsub. do 2 eexists.
  split; [now apply dataset_filtered_data|].
  split; [now apply dataset_filtered_data|].
  cbn [rows].
  assert (Hmore : forall r, In r (rows data) ->
            keeps data countries year_min year_max r = true ->
            keeps data countries' year_min year_max r = true).
  { intros r _. apply keeps_narrower; [assumption | lia | lia]. }
  split.
  - intros r Hr. apply filter_In in Hr as [Hr Hk].
    apply filter_In. split; [assumption | now apply Hmore].
  - now apply filter_Subsequence_impl.
Qed.

Lemma filter_monotone_selection_witness :
  dataset scenario = true /\
  exists fewer more,
    filtered_data scenario ["Finland"] (2010, 2023) = Ok fewer /\
    filtered_data scenario ["Mongolia"; "Finland"] (2010, 2023) = Ok more /\
    (forall r, In r (rows fewer) -> In r (rows more)) /\
    Subsequence (rows fewer) (rows more).
Proof.
  split; [reflexivity|].
  apply (filter_monotone_selection scenario ["Finland"]
           ["Mongolia"; "Finland"] 2010 2023).
  - reflexivity.
  - intros c [<-|[]]. right. now left.
Defined.

(** X3.  On a view with a present Life Ladder value, the lowest and the
    highest score shown are themselves present Life Ladder values of
    records of the view: neither is NaN, neither is made up. *)
Theorem extremes_are_values view :
  dataset view = true ->
  present (measures view "Life Ladder") <> [] ->
  exists avg lo hi,
    key_statistics view = Ok (F2 avg, F2 lo, F2 hi) /\
    In lo (measures view "Life Ladder") /\ is_nan lo = false /\
    In hi (measures view "Life Ladder") /\ is_nan hi = false.
Proof.
  intros Hd Hp. apply dataset_columns in Hd as (_ & _ & Hl & _).
  unfold key_statistics, metric_text.
  rewrite (scores_ladder _ Hl), (empty_rows _ _ _ Hl). cbn [bind].
  assert (Hrows : rows view <> []).
  { intros E. apply Hp. unfold measures. now rewrite E. }
  destruct (rows view) eqn:Er; [contradiction|]. cbn [negb].
  do 3 eexists. split; [reflexivity|].
  destruct (nanmin_least _ Hp) as [Hlo _].
  destruct (nanmax_greatest _ Hp) as [Hhi _].
  apply present_In in Hlo as [? ?]. apply present_In in Hhi as [? ?].
  auto.
Qed.

Lemma extremes_are_values_witness :
  dataset five_missing_seven = true /\
  exists avg lo hi,
    key_statistics five_missing_seven = Ok (F2 avg, F2 lo, F2 hi) /\
    In lo (measures five_missing_seven "Life Ladder") /\ is_nan lo = false /\
    In hi (measures five_missing_seven "Life Ladder") /\ is_nan hi = false.
Proof.
  split; [reflexivity|].
  apply (extremes_are_values five_missing_seven).
  - reflexivity.
  - vm_compute. discriminate.
Defined.

(* ================================================================== *)
(** * The Global Map tab (lines 100-116)                                *)
(* ================================================================== *)

Lemma mapM_float_test (test : float -> bool) (f : cell -> result bool) j rs :
  (forall x, f (Float x) = Ok (test x)) ->
  (forall r, In r rs -> is_float (cell_at j r) = true) ->
  mapM f (map (fun r => cell_at j r) rs)
  = Ok (map (fun r => match cell_at j r with
                      | Float x => test x
                      | _ => false
                      end) rs).
Proof.
  intros Hf Hfl.
  rewrite <- (map_map (fun r => cell_at j r)
                (fun c => match c with Float x => test x | _ => false end)).
  apply mapM_pure. intros c Hc. apply in_map_iff in Hc as (r & <- & Hr).
  specialize (Hfl r Hr). destruct (cell_at j r); try discriminate. apply Hf.
Qed.

(** X4.  On a dataset the Global Map never fails, whatever the widgets
    say.  It shows, in the order of the dataset, exactly the records
    whose year is the upper end of the year range and whose Life Ladder
    lies in the score range; the lower end of the year range plays no
    part, and a record whose Life Ladder is missing is never shown. *)
Theorem global_map_records data year_range score_range :
  dataset data = true ->
  exists shown_frame,
    filtered_global_data data year_range score_range = Ok shown_frame /\
    columns shown_frame = columns data /\
    Subsequence (rows shown_frame) (rows data) /\
    (forall r, In r (rows shown_frame) <->
               In r (rows data) /\ on_map data year_range score_range r) /\
    (forall r, In r (rows shown_frame) ->
               missing (field data "Life Ladder" r) = false).
Proof.
  intros Hd. apply dataset_columns in Hd as (_ & Hy & Hl & _).
  destruct (column_all_position _ _ _ Hy) as (jy & Hjy & Hint).
  destruct (column_all_position _ _ _ Hl) as (jl & Hjl & Hfl).
  unfold filtered_global_data, getitem, getitem_mask, eq_int, ge_float,
    le_float, values.
  rewrite Hjy. cbn [bind columns rows snd]. rewrite Hjl. cbn [bind].
  rewrite !map_map. cbn [snd]. rewrite select_map.
  set (at_year := fun r : Row =>
         match cell_at jy r with
         | Int z => z =? snd year_range
         | Float f => PrimFloat.eqb f (float_of_int (snd year_range))
         | Str _ => false
         end).
  assert (Hfl' : forall r, In r (filter at_year (rows data)) ->
            is_float (cell_at jl r) = true).
  { intros r Hr. apply filter_In in Hr as [Hr _]. now apply Hfl. }
  rewrite (mapM_float_test (fun x => (fst score_range <=? x)%float)
             (ge_float_cell (fst score_range)) jl _ (fun x => eq_refl) Hfl'),
          (mapM_float_test (fun x => (x <=? snd score_range)%float)
             (le_float_cell (snd score_range)) jl _ (fun x => eq_refl) Hfl').
  cbn [bind]. rewrite mask_and_map, select_map.
  eexists. split; [reflexivity|]. cbn [columns rows].
  split; [reflexivity|]. split.
  { eapply (Subsequence_In_trans); [apply filter_Subsequence|].
    apply filter_Subsequence. }
  assert (Hiff : forall r, In r (filter
            (fun r => match cell_at jl r with
                      | Float x => (fst score_range <=? x)%float
                      | _ => false
                      end
                      && match cell_at jl r with
                         | Float x => (x <=? snd score_range)%float
                         | _ => false
                         end) (filter at_year (rows data))) <->
            In r (rows data) /\ on_map data year_range score_range r).
  { intros r. rewrite !filter_In. unfold on_map, field, at_year.
    rewrite Hjy, Hjl. split.
    - intros [[Hr Hyr] Hs]. split; [assumption|].
      specialize (Hint r Hr). destruct (cell_at jy r) as [|z|]; try discriminate.
      apply Z.eqb_eq in Hyr. subst z. split; [reflexivity|].
      destruct (cell_at jl r) as [|?|x]; try discriminate.
      apply andb_true_iff in Hs as [Hlo Hhi]. now exists x.
    - intros [Hr [Hyr (x & Hx & Hlo & Hhi)]]. rewrite Hyr, Hx.
      rewrite Z.eqb_refl, Hlo, Hhi. auto. }
  split; [exact Hiff|].
  intros r Hr. apply Hiff in Hr as [_ [_ (x & Hx & Hlo & _)]].
  rewrite Hx. cbn [missing].
  destruct (is_nan x) eqn:Hn; [|reflexivity].
  rewrite (leb_nan_r _ _ Hn) in Hlo. discriminate.
Qed.

Lemma global_map_records_witness :
  dataset unscored = true /\
  exists shown_frame,
    filtered_global_data unscored (2010, 2023) (0.0, 10.0)%float
    = Ok shown_frame /\
    columns shown_frame = columns unscored /\
    Subsequence (rows shown_frame) (rows unscored) /\
    (forall r, In r (rows shown_frame) <->
               In r (rows unscored) /\
               on_map unscored (2010, 2023) (0.0, 10.0)%float r) /\
    (forall r, In r (rows shown_frame) ->
               missing (field unscored "Life Ladder" r) = false).
Proof.
  split; [reflexivity|].
  apply (global_map_records unscored (2010, 2023) (0.0, 10.0)%float).
  reflexivity.
Defined.

(** On [unscored] with the default widgets the map shows Finland 2023
    alone: Kosovo 2023 has no score. *)
Example global_map_of_unscored :
  filtered_global_data unscored (2010, 2023) (0.0, 10.0)%float
  = Ok (mkFrame (columns unscored)
          [ mkRow 3 [Str "Finland"; Int 2023; Float 7.75; Float 10.75;
                     Float 0.9375; Float 71] ]).
Proof. reflexivity. Qed.

(* ================================================================== *)
(** * The indicators of the Insights tab (lines 63-74)                  *)
(* ================================================================== *)

Lemma measures_measure view name :
  measures view name = map (measure view name) (rows view).
Proof. reflexivity. Qed.


(** A float column read with its labels. *)
Lemma labelled_floats_getitem view name :
  column_all is_float name view = true ->
  exists s, getitem view name = Ok s /\
            floats s = Ok (measures view name) /\
            labelled_floats s = Ok (labelled view name).
Proof.
  intros Hc. destruct (floats_getitem _ _ Hc) as (s & Hs & Hf).
  exists s. split; [assumption|]. split; [assumption|].
  destruct (column_all_position _ _ _ Hc) as (j & Hj & Hfl).
  unfold getitem in Hs. rewrite Hj in Hs. injection Hs as <-.
  unfold labelled_floats, labelled, measure, field. rewrite Hj.
  rewrite <- (map_map (fun r => (label r, cell_at j r))
                (fun p : Z * cell =>
                   (fst p, match snd p with
                           | Float f => f
                           | Int z => float_of_int z
                           | Str _ => nan
                           end))).
  apply mapM_pure. intros p Hp. apply in_map_iff in Hp as (r & <- & Hr).
  specialize (Hfl r Hr). cbn [fst snd].
  destruct (cell_at j r); try discriminate. reflexivity.
Qed.








(** The indicators on a dataset, the reductions carried out. *)
Lemma key_indicators_dataset cd :
  dataset cd = true ->
  key_indicators cd
  = match argbest (fun x b => (b <? x)%float) None (labelled cd "Life Ladder")
    with
    | None => Raise ValueError
    | Some (at_hi, _) =>
        year_hi <- loc cd at_hi "year" ;;
        match argbest (fun x b => (x <? b)%float) None
                (labelled cd "Life Ladder") with
        | None => Raise ValueError
        | Some (at_lo, _) =>
            year_lo <- loc cd at_lo "year" ;;
            Ok (mkIndicators
                  (nanmean (measures cd "Life Ladder"))
                  (nanmax (measures cd "Life Ladder")) year_hi
                  (nanmin (measures cd "Life Ladder")) year_lo
                  (nanmean (measures cd "Social support"))
                  (nanmean (measures cd "Healthy life expectancy at birth"))
                  (nanmean (measures cd "Log GDP per capita")))
        end
    end.
Proof.
  intros Hd. apply dataset_columns in Hd as (_ & _ & Hl & Hg & Hs & Hh).
  destruct (labelled_floats_getitem _ _ Hl) as (sl & El & Fl & Ll).
  destruct (floats_getitem _ _ Hg) as (sg & Eg & Fg).
  destruct (floats_getitem _ _ Hs) as (ss & Es & Fs).
  destruct (floats_getitem _ _ Hh) as (sh & Eh & Fh).
  unfold key_indicators, mean, max, min, idxmax, idxmin.
  rewrite El, Eg, Es, Eh. cbn [bind]. rewrite Fl, Ll, Fg, Fs, Fh. cbn [bind].
  destruct (argbest (fun x b => (b <? x)%float) None
              (labelled cd "Life Ladder")) as [[at_hi x_hi]|];
    cbn [bind]; [|reflexivity].
  destruct (loc cd at_hi "year") as [year_hi|e]; cbn [bind]; [|reflexivity].
  destruct (argbest (fun x b => (x <? b)%float) None
              (labelled cd "Life Ladder")) as [[at_lo x_lo]|];
    cbn [bind]; [|reflexivity].
  destruct (loc cd at_lo "year") as [year_lo|e]; reflexivity.
Qed.







Lemma key_indicators_scores cd k :
  dataset cd = true ->
  key_indicators cd = Ok k ->
  rows cd <> [] /\
  average k = nanmean (measures cd "Life Ladder") /\
  lowest k = nanmin (measures cd "Life Ladder") /\
  highest k = nanmax (measures cd "Life Ladder").
Proof.
  intros Hd. rewrite (key_indicators_dataset _ Hd).
  destruct (rows cd) as [|r rs] eqn:Er.
  { unfold labelled. rewrite Er. cbn. discriminate. }
  destruct (argbest (fun x b => (b <? x)%float) None
              (labelled cd "Life Ladder")) as [[at_hi x_hi]|];
    [|discriminate].
  destruct (loc cd at_hi "year") as [year_hi|e]; cbn [bind]; [|discriminate].
  destruct (argbest (fun x b => (x <? b)%float) None
              (labelled cd "Life Ladder")) as [[at_lo x_lo]|];
    [|discriminate].
  destruct (loc cd at_lo "year") as [year_lo|e]; cbn [bind]; [|discriminate].
  intros [= <-]. cbn [average lowest highest].
  repeat split. discriminate.
Qed.

(** X6.  When one country is selected and the year range covers every
    year the country has, the view is the very frame the Insights tab
    computes from, so the two places agree: the three key statistics are
    the average, lowest and highest score of the Insights. *)
Theorem metrics_agree_with_insights data c year_min year_max :
  dataset data = true ->
  (forall r y, In r (rows data) ->
     field data "Country name" r = Str c -> field data "year" r = Int y ->
     year_min <= y <= year_max) ->
  exists view,
    filtered_data data [c] (year_min, year_max) = Ok view /\
    country_data data c = Ok view /\
    forall k, key_indicators view = Ok k ->
      key_statistics view = Ok (F2 (average k), F2 (lowest k), F2 (highest k)).
Proof.
  intros Hd Hcover.
  pose proof (dataset_filter data (keeps data [c] year_min year_max) Hd) as Hv.
  eexists. split; [now apply dataset_filtered_data|]. split.
  - pose proof Hd as Hcols.
    apply dataset_columns in Hcols as (Hc & Hy & _).
    destruct (column_all_position _ _ _ Hc) as (jc & Hjc & Hstr).
    destruct (column_all_position _ _ _ Hy) as (jy & Hjy & Hint).
    unfold country_data, getitem, getitem_mask, eq_str, values.
    rewrite Hjc. cbn [bind]. rewrite !map_map. cbn [snd].
    rewrite select_map. f_equal. f_equal.
    apply filter_ext_in. intros r Hr.
    unfold keeps. specialize (Hcover r). unfold field in *.
    rewrite Hjc, Hjy in *.
    specialize (Hstr r Hr). specialize (Hint r Hr).
    destruct (cell_at jc r) as [x| |]; try discriminate.
    destruct (cell_at jy r) as [|y|]; try discriminate.
    cbn [existsb]. rewrite orb_false_r.
    destruct (String.eqb_spec x c) as [->|Hne]; [|reflexivity].
    destruct (Hcover y Hr eq_refl eq_refl) as [Hlo Hhi].
    apply Z.leb_le in Hlo, Hhi. now rewrite Hlo, Hhi.
  - intros k Hk.
    destruct (key_indicators_scores _ _ Hv Hk) as (Hrows & -> & -> & ->).
    pose proof Hv as Hcols.
    apply dataset_columns in Hcols as (_ & _ & Hl & _).
    unfold key_statistics, metric_text.
    rewrite (scores_ladder _ Hl), (empty_rows _ _ _ Hl). cbn [bind].
    match goal with
    | |- context [match rows ?v with _ => _ end] => destruct (rows v)
    end; [contradiction | reflexivity].
Qed.

Lemma metrics_agree_with_insights_witness :
  dataset scenario = true /\
  exists view,
    filtered_data scenario ["Mongolia"] (2010, 2023) = Ok view /\
    country_data scenario "Mongolia" = Ok view /\
    forall k, key_indicators view = Ok k ->
      key_statistics view = Ok (F2 (average k), F2 (lowest k), F2 (highest k)).
Proof.
  split; [reflexivity|].
  apply (metrics_agree_with_insights scenario "Mongolia" 2010 2023).
  - reflexivity.
  - intros r y [<-|[<-|[<-|[]]]] _ [= <-]; lia.
Defined.

(* ================================================================== *)
(** * What a completed run offers for download (lines 127-152)          *)
(* ================================================================== *)

Lemma add_strs_map {A} (f : A -> cell) (g : A -> string) (h : A -> cell)
    (l : list A) :
  (forall x, In x l -> add_str_cell (f x) (g x) = Ok (h x)) ->
  add_strs (map f l) (map g l) = Ok (map h l).
Proof.
  induction l as [|x l IH]; intros Hh; simpl; [reflexivity|].
  rewrite (Hh x (or_introl eq_refl)), IH; [reflexivity|].
  intros y Hy. apply Hh. now right.
Qed.

Lemma assign_append (f : Row -> cell) (rs : list Row) :
  assign (fun v cs => (cs ++ [v])%list) rs (map f rs)
  = map (fun r => mkRow (label r) (cells r ++ [f r])%list) rs.
Proof. induction rs as [|r rs IH]; simpl; [reflexivity | now rewrite IH]. Qed.

(** Line 130 on a dataset: one label for each record of the view. *)
Lemma country_year_dataset `{Builtins} view :
  dataset view = true ->
  country_year view = Ok (map (country_year_label view) (rows view)).
Proof.
  intros Hd. apply dataset_columns in Hd as (Hc & Hy & _).
  destruct (column_all_position _ _ _ Hc) as (jc & Hjc & Hstr).
  destruct (column_all_position _ _ _ Hy) as (jy & Hjy & Hint).
  unfold country_year, getitem, add_str, astype_str, values.
  rewrite Hjc, Hjy. cbn [bind]. rewrite !map_map. cbn [snd].
  rewrite (mapM_pure (fun c => add_str_cell c " (")
             (fun c => match c with Str x => Str (x ++ " (") | _ => NaN end)).
  2:{ intros c Hin. apply in_map_iff in Hin as (r & <- & Hr).
      specialize (Hstr r Hr). destruct (cell_at jc r); try discriminate.
      reflexivity. }
  cbn [bind]. rewrite map_map.
  rewrite (add_strs_map
             (fun r => match cell_at jc r with
                       | Str x => Str (x ++ " (")
                       | _ => NaN
                       end)
             (fun r => astype_str_cell (cell_at jy r))
             (fun r => match cell_at jc r, cell_at jy r with
                       | Str x, Int y => Str ((x ++ " (") ++ str_of_int y)
                       | _, _ => NaN
                       end)).
  2:{ intros r Hr. specialize (Hstr r Hr). specialize (Hint r Hr).
      destruct (cell_at jc r); try discriminate.
      destruct (cell_at jy r); try discriminate. reflexivity. }
  cbn [bind].
  rewrite (mapM_pure (fun c => add_str_cell c ")")
             (fun c => match c with Str x => Str (x ++ ")") | _ => NaN end)).
  2:{ intros c Hin. apply in_map_iff in Hin as (r & <- & Hr).
      specialize (Hstr r Hr). specialize (Hint r Hr).
      destruct (cell_at jc r); try discriminate.
      destruct (cell_at jy r); try discriminate. reflexivity. }
  f_equal. rewrite map_map. apply map_ext_in. intros r Hr.
  unfold country_year_label, field. rewrite Hjc, Hjy.
  specialize (Hstr r Hr). specialize (Hint r Hr).
  destruct (cell_at jc r); try discriminate.
  destruct (cell_at jy r); try discriminate. reflexivity.
Qed.

(** A completed run on a dataset: the frame the download serializes is
    the view, or the view with the column of line 130 assigned. *)
Lemma completed_run_serializes `{Builtins} data inputs :
  dataset data = true ->
  snd (run data inputs) = Ok tt ->
  exists view fd,
    filtered_data data (selected_countries inputs) (year_range inputs)
    = Ok view /\
    dataset view = true /\ columns view = columns data /\
    exported (run data inputs) = Some (to_csv fd) /\
    fd = if (1 <? List.length (selected_countries inputs))%nat
         then setitem view "Country (Year)"
                (map (country_year_label view) (rows view))
         else view.
Proof.
  intros Hd Hok. unfold run in *.
  destruct (body inputs (mkEnv data None [])) as [final r] eqn:Hrun.
  cbn [snd] in Hok. subst r. unfold body in Hrun.
  destruct (filter_and_metrics_complete inputs data Hd)
    as (view & metrics & Hview & _ & Hrest).
  rewrite Hrest in Hrun.
  assert (Hv : dataset view = true /\ columns view = columns data).
  { destruct (year_range inputs) as [lo hi].
    rewrite (dataset_filtered_data _ _ _ _ Hd) in Hview.
    injection Hview as <-. split; [now apply dataset_filter | reflexivity]. }
  destruct Hv as [Hdv Hcols].
  apply seq_completes in Hrun as ([] & e3 & H3 & Hrun).
  apply seq_completes in Hrun as ([] & e4 & H4 & Hrun).
  apply seq_completes in Hrun as ([] & e5 & H5 & Hrun).
  apply seq_completes in Hrun as ([] & e6 & H6 & Hrun).
  apply seq_completes in Hrun as ([] & e7 & H7 & Hrun).
  apply (respects_same_view _ _ _ _ (insights_tab_same_view inputs)) in H3.
  apply (respects_same_view _ _ _ _ (trends_tab_same_view inputs)) in H4.
  apply (respects_same_view _ _ _ _ (global_map_tab_same_view inputs)) in H5.
  apply (respects_same_view _ _ _ _ (detailed_metrics_tab_same_view inputs))
    in H6.
  cbn [var_filtered_data] in H3.
  assert (Hv6 : var_filtered_data e6 = Some view) by congruence.
  apply download_exports in Hrun as (fd & Hfd & Hcsv).
  exists view, fd. repeat split; try assumption.
  destruct (1 <? List.length (selected_countries inputs))%nat eqn:Hn.
  - apply Nat.ltb_lt in Hn.
    destruct (comparisons_tab_assigns inputs e6 e7 view Hn Hv6 H7)
      as (labels & Hlab & Hv7).
    rewrite (country_year_dataset _ Hdv) in Hlab. injection Hlab as <-.
    congruence.
  - apply Nat.ltb_ge in Hn.
    apply (respects_same_view _ _ _ _ (comparisons_tab_same_view inputs Hn))
      in H7.
    congruence.
Qed.

(** X7.  What a completed run on a dataset offers for download.  With
    at most one country selected: the columns of the dataset and the
    records of the view, cell for cell and in order.  With more than one
    selected (and no input column called [Country (Year)]): the same
    columns followed by [Country (Year)], and each record of the view
    followed by its label, the country and the year between brackets. *)
Theorem export_on_completion `{Builtins} data inputs :
  dataset data = true ->
  position "Country (Year)" (columns data) = None ->
  snd (run data inputs) = Ok tt ->
  exists view csv,
    filtered_data data (selected_countries inputs) (year_range inputs)
    = Ok view /\
    exported (run data inputs) = Some csv /\
    if (1 <? List.length (selected_countries inputs))%nat
    then header csv = (columns data ++ ["Country (Year)"])%list /\
         records csv
         = map (fun r => (cells r ++ [country_year_label data r])%list)
             (rows view)
    else header csv = columns data /\ records csv = map cells (rows view).
Proof.
  intros Hd Hnew Hok.
  destruct (completed_run_serializes data inputs Hd Hok)
    as (view & fd & Hview & Hdv & Hcols & Hcsv & Hfd).
  exists view, (to_csv fd). split; [assumption|]. split; [assumption|].
  destruct (1 <? List.length (selected_countries inputs))%nat; subst fd.
  - unfold setitem. rewrite Hcols, Hnew. cbn [to_csv header records columns rows].
    split; [reflexivity|].
    rewrite assign_append, map_map. cbn [cells].
    apply map_ext. intros r. unfold country_year_label, field.
    now rewrite Hcols.
  - cbn [to_csv header records]. now rewrite Hcols.
Qed.

Lemma export_on_completion_witness :
  dataset two_countries = true /\
  position "Country (Year)" (columns two_countries) = None /\
  snd (@run plain_builtins two_countries compare_two) = Ok tt /\
  exists view csv,
    filtered_data two_countries (selected_countries compare_two)
      (year_range compare_two) = Ok view /\
    exported (@run plain_builtins two_countries compare_two) = Some csv /\
    if (1 <? List.length (selected_countries compare_two))%nat
    then header csv = (columns two_countries ++ ["Country (Year)"])%list /\
         records csv
         = map (fun r => (cells r ++ [country_year_label two_countries r])%list)
             (rows view)
    else header csv = columns two_countries /\
         records csv = map cells (rows view).
Proof.
  split; [reflexivity|]. split; [reflexivity|]. split; [reflexivity|].
  apply (@export_on_completion plain_builtins two_countries compare_two);
    reflexivity.
Defined.
(* ================================================================== *)
(** * The sidebar widgets (lines 28-35)                                 *)
(* ================================================================== *)

Lemma cell_eqb_str x d : cell_eqb (Str x) d = true <-> d = Str x.
Proof.
  destruct d as [y|z|f]; cbn [cell_eqb]; [|split; discriminate..].
  rewrite String.eqb_eq. split; [now intros -> | now intros [= ->]].
Qed.

(** The distinct values of a column of texts: each value of the column
    not seen before, once, in the order of the column. *)
Lemma unique_from_str l : forall seen,
  Forall (fun c => is_str c = true) l ->
  NoDup (unique_from seen l) /\
  (forall c, In c (unique_from seen l) <-> In c l /\ ~ In c seen) /\
  Subsequence (unique_from seen l) l.
Proof.
  induction l as [|c l IH]; intros seen Hstr; cbn [unique_from].
  - split; [constructor|]. split; [|constructor].
    intros c. split; [intros [] | intros [[] _]].
  - inversion_clear Hstr as [|? ? Hc Hl].
    destruct c as [x|z|f]; try discriminate.
    destruct (existsb (cell_eqb (Str x)) seen) eqn:Hseen.
    + apply existsb_exists in Hseen as (d & Hd & Heq).
      apply cell_eqb_str in Heq. subst d.
      destruct (IH seen Hl) as (Hnd & Hin & Hsub).
      split; [assumption|]. split; [|now constructor].
      intros c. rewrite Hin. split.
      * intros [? ?]. split; [now right | assumption].
      * intros [[<-|?] Hn]; [contradiction | now split].
    + assert (Hnew : ~ In (Str x) seen).
      { intros Hin.
        assert (existsb (cell_eqb (Str x)) seen = true); [|congruence].
        apply existsb_exists. exists (Str x). split; [assumption|].
        now apply cell_eqb_str. }
      destruct (IH (Str x :: seen) Hl) as (Hnd & Hin & Hsub).
      split; [|split; [|now constructor]].
      * constructor; [|assumption]. rewrite Hin. intros [_ Hn].
        apply Hn. now left.
      * intros c. cbn [In]. rewrite Hin. cbn [In]. split.
        -- intros [<-|[? Hn]]; [now split; [left|]|].
           split; [now right|]. intros ?. apply Hn. now right.
        -- intros [[<-|?] Hn]; [now left|].
           destruct (cell_eqb (Str x) c) eqn:E.
           ++ apply cell_eqb_str in E. now left.
           ++ right. split; [assumption|]. intros [<-|?]; [|contradiction].
              assert (cell_eqb (Str x) (Str x) = true)
                by now apply cell_eqb_str.
              congruence.
Qed.

Lemma fold_left_min zs : forall z,
  In (fold_left Z.min zs z) (z :: zs) /\
  forall y, In y (z :: zs) -> fold_left Z.min zs z <= y.
Proof.
  induction zs as [|x zs IH]; intros z; cbn [fold_left].
  - split; [now left|]. intros y [<-|[]]. lia.
  - destruct (IH (Z.min z x)) as [Hin Hle]. split.
    + destruct Hin as [E|Hin]; [|right; now right].
      rewrite <- E. destruct (Z.min_spec z x) as [[_ ->]|[_ ->]];
        [now left | right; now left].
    + intros y [<-|[<-|Hy]].
      * specialize (Hle _ (or_introl eq_refl)). lia.
      * specialize (Hle _ (or_introl eq_refl)). lia.
      * apply Hle. now right.
Qed.

Lemma fold_left_max zs : forall z,
  In (fold_left Z.max zs z) (z :: zs) /\
  forall y, In y (z :: zs) -> y <= fold_left Z.max zs z.
Proof.
  induction zs as [|x zs IH]; intros z; cbn [fold_left].
  - split; [now left|]. intros y [<-|[]]. lia.
  - destruct (IH (Z.max z x)) as [Hin Hle]. split.
    + destruct Hin as [E|Hin]; [|right; now right].
      rewrite <- E. destruct (Z.max_spec z x) as [[_ ->]|[_ ->]];
        [right; now left | now left].
    + intros y [<-|[<-|Hy]].
      * specialize (Hle _ (or_introl eq_refl)). lia.
      * specialize (Hle _ (or_introl eq_refl)). lia.
      * apply Hle. now right.
Qed.

(** The years of an integer column. *)
Lemma int64_values_column j (rs : list Row) :
  (forall r, In r rs -> is_int (cell_at j r) = true) ->
  exists zs, int64_values (map (cell_at j) rs) = Some zs /\
             map (cell_at j) rs = map Int zs.
Proof.
  induction rs as [|r rs IH]; intros Hint; cbn [map int64_values].
  - now exists [].
  - destruct (IH (fun r' Hr => Hint r' (or_intror Hr))) as (zs & Hzs & Hm).
    specialize (Hint r (or_introl eq_refl)).
    destruct (cell_at j r) as [|z|]; try discriminate.
    exists (z :: zs). rewrite Hzs, Hm. split; reflexivity.
Qed.

(** X8.  What the two sidebar widgets are given, on a dataset.  The
    options of the country selector are the countries of the dataset,
    each once, in the order of the dataset.  The bounds of the year
    slider are years of records, and every year of the dataset lies
    between them; with no record at all they cannot be computed: [int]
    of the NaN that [min()] answers raises [ValueError]. *)
Theorem sidebar_widgets data :
  dataset data = true ->
  (exists options,
     country_options data = Ok options /\
     NoDup options /\
     (forall c, In c options <->
        exists r, In r (rows data) /\ field data "Country name" r = c) /\
     Subsequence options (map (field data "Country name") (rows data))) /\
  (rows data = [] -> year_bounds data = Raise ValueError) /\
  (rows data <> [] ->
   exists lo hi,
     year_bounds data = Ok (lo, hi) /\
     (exists r, In r (rows data) /\ field data "year" r = Int lo) /\
     (exists r, In r (rows data) /\ field data "year" r = Int hi) /\
     forall r y, In r (rows data) -> field data "year" r = Int y ->
       lo <= y <= hi).
Proof.
  intros Hd. apply dataset_columns in Hd as (Hc & Hy & _).
  destruct (column_all_position _ _ _ Hc) as (jc & Hjc & Hstr).
  destruct (column_all_position _ _ _ Hy) as (jy & Hjy & Hint).
  unfold country_options, year_bounds, getitem, min_value,
    max_value, unique, values, field.
  rewrite Hjc, Hjy. cbn [bind]. rewrite !map_map. cbn [snd].
  change (map (fun x : Row => cell_at jy x) (rows data))
    with (map (cell_at jy) (rows data)).
  change (map (fun x : Row => cell_at jc x) (rows data))
    with (map (cell_at jc) (rows data)).
  split.
  { destruct (unique_from_str (map (cell_at jc) (rows data)) [])
      as (Hnd & Hin & Hsub).
    { apply Forall_forall. intros c Hi.
      apply in_map_iff in Hi as (r & <- & Hr). now apply Hstr. }
    eexists. split; [reflexivity|].
    split; [assumption|]. split; [|assumption].
    intros c. rewrite Hin, in_map_iff. split.
    - intros [(r & E & Hr) _]. now exists r.
    - intros (r & Hr & E). split; [now exists r | intros []]. }
  destruct (int64_values_column jy (rows data) Hint) as (zs & -> & Hzs).
  split.
  - intros E. rewrite E in Hzs. destruct zs; [reflexivity | discriminate].
  - intros Hne.
    destruct zs as [|z zs].
    { destruct (rows data); [contradiction | discriminate]. }
    cbn [bind int_of_number].
    destruct (fold_left_min zs z) as [Hlo Hlo_le].
    destruct (fold_left_max zs z) as [Hhi Hhi_le].
    assert (Hyear : forall y, In y (z :: zs) <->
              exists r, In r (rows data) /\ cell_at jy r = Int y).
    { intros y. split.
      - intros Hi. apply (in_map Int) in Hi. rewrite <- Hzs in Hi.
        apply in_map_iff in Hi as (r & E & Hr). now exists r.
      - intros (r & Hr & E). apply (in_map (cell_at jy)) in Hr.
        rewrite Hzs, E in Hr. apply in_map_iff in Hr as (y' & [= ->] & ?).
        assumption. }
    do 2 eexists. split; [reflexivity|].
    split; [now apply Hyear|]. split; [now apply Hyear|].
    intros r y Hr E.
    assert (Hi : In y (z :: zs)) by (apply Hyear; now exists r).
    split; [now apply Hlo_le | now apply Hhi_le].
Qed.

Lemma sidebar_widgets_witness :
  dataset scenario = true /\
  (exists options,
     country_options scenario = Ok options /\
     NoDup options /\
     (forall c, In c options <->
        exists r, In r (rows scenario) /\
                  field scenario "Country name" r = c) /\
     Subsequence options
       (map (field scenario "Country name") (rows scenario))) /\
  (rows scenario = [] -> year_bounds scenario = Raise ValueError) /\
  (rows scenario <> [] ->
   exists lo hi,
     year_bounds scenario = Ok (lo, hi) /\
     (exists r, In r (rows scenario) /\ field scenario "year" r = Int lo) /\
     (exists r, In r (rows scenario) /\ field scenario "year" r = Int hi) /\
     forall r y, In r (rows scenario) -> field scenario "year" r = Int y ->
       lo <= y <= hi).
Proof.
  split; [reflexivity|].
  apply (sidebar_widgets scenario). reflexivity.
Defined.

(** The sidebar of the scenario: Mongolia and Finland, 2015 to 2016. *)
Example sidebar_of_scenario :
  country_options scenario = Ok [Str "Mongolia"; Str "Finland"] /\
  year_bounds scenario = Ok (2015, 2016).
Proof. split; reflexivity. Qed.

